(** * py-scrape-quotes: the crawl loop and the author-biography cache

    A shallow embedding of [app/parse.py]: [get_soup], [scrape_author_bio]
    and [main], followed by the properties of the pagination loop and of the
    biography cache.

    The program is sequential Python that mutates a list ([quotes_data]) and
    a dict ([author_bio_cache]), performs HTTP requests, prints, writes two
    files, and can stop with an uncaught exception.  It is modelled in a
    state-and-exception monad over a record holding exactly those objects
    plus the observable effects (requests made, lines printed, files
    written).  The network, [urljoin] and the file system are parameters;
    [urljoin] and [open] can refuse their argument, which raises. *)

From Stdlib Require Import String Ascii List Bool Arith Lia DecimalString.
Import ListNotations.
Open Scope string_scope.

(* ================================================================= *)
(** ** Documents, as the program queries them *)

(** The HTML parser is a library; the program only sees a document through
    CSS selections.  A document is therefore represented by the answers to
    the selections the program makes.  [get_text(strip=True)] of an element
    is represented by the resulting string. *)

(** One element matched by [.quote]. *)
Record Block := mkBlock {
  (** [block.select_one(".text")]: [None] when no such element exists. *)
  b_text    : option string;
  (** [block.select_one(".author")]. *)
  b_author  : option string;
  (** [block.select(".tag")], in document order. *)
  b_tags    : list string;
  (** the [a] elements inside the block, in document order, each with its
      [href] attribute when it has one. *)
  b_anchors : list (option string)
}.

Record Document := mkDocument {
  (** [soup.select(".quote")], in document order. *)
  d_quotes : list Block;
  (** [soup.select_one("li.next a")]: [None] when there is no such element,
      [Some None] when the element has no [href] attribute. *)
  d_next : option (option string);
  (** [soup.select_one(".author-description")]. *)
  d_author_description : option string
}.

(** [@dataclass class Quote]. *)
Record Quote := mkQuote {
  text   : string;
  author : string;
  tags   : list string
}.

(** The attribute selector [[href*='/author/']]: the value contains the
    substring. *)
Definition contains (needle hay : string) : bool :=
  match String.index 0 needle hay with
  | Some _ => true
  | None => false
  end.

Definition is_author_link (a : option string) : bool :=
  match a with
  | Some h => contains "/author/" h
  | None => false
  end.

(** [block.select_one("a[href*='/author/']")] followed by [['href']]: the
    first matching anchor; its [href] exists by the selector. *)
Definition select_about_link (b : Block) : option string :=
  match find is_author_link (b_anchors b) with
  | Some (Some h) => Some h
  | _ => None
  end.

(* ================================================================= *)
(** ** Python dictionaries *)

(** A [dict] keeps insertion order (it is iterated by [main] when the
    biographies are written), so it is an association list. *)
Definition Dict := list (string * string).

Fixpoint dict_get (k : string) (d : Dict) : option string :=
  match d with
  | [] => None
  | (k', v) :: d' => if String.eqb k k' then Some v else dict_get k d'
  end.

(** [k in d]. *)
Definition dict_mem (k : string) (d : Dict) : bool :=
  match dict_get k d with Some _ => true | None => false end.

(** [d[k] = v]: replaces the value of an existing key in place, appends a
    new key at the end. *)
Fixpoint dict_set (k v : string) (d : Dict) : Dict :=
  match d with
  | [] => [(k, v)]
  | (k', v') :: d' =>
      if String.eqb k k' then (k, v) :: d' else (k', v') :: dict_set k v d'
  end.

(* ================================================================= *)
(** ** Effects *)

(** What one HTTP request followed by parsing yields inside [get_soup]:
    a document, or a [requests.RequestException] with its message. *)
Inductive Response :=
| Ok (d : Document)
| Failed (cause : string).

(** The two places [get_soup] is called from.  The label is not data of the
    program: it only lets the request log tell page requests from biography
    requests. *)
Inductive Caller :=
| FromMain
| FromBio (key : string).

Record Fetch := mkFetch {
  f_caller   : Caller;
  f_url      : string;
  f_response : Response
}.

(** The uncaught exceptions the program can stop with. *)
Inductive Exn :=
| AttributeError   (* [None.get_text] *)
| KeyError (key : string)   (* [tag[key]] on a tag without that attribute *)
| ValueError   (* [urljoin] on a reference it cannot parse *)
| OSError.   (* [open] on a path that cannot be opened for writing *)

Record State := mkState {
  (** [quotes_data] of [main]. *)
  quotes_data : list Quote;
  (** the dict [main] creates as [author_bio_cache] and passes to
      [scrape_author_bio] as [cache]. *)
  cache : Dict;
  (** every call of [get_soup], oldest first. *)
  fetched : list Fetch;
  (** lines printed, oldest first. *)
  stdout : list string;
  (** the files written with [csv.writer], each under the file it is (two
      paths can denote one file) with its rows; a file opened again for
      writing has its contents replaced. *)
  written : list (string * list (list string))
}.

Inductive Outcome (A : Type) :=
| Returned (a : A)
| Raised (e : Exn)
| OutOfFuel.
Arguments Returned {A} a.
Arguments Raised {A} e.
Arguments OutOfFuel {A}.

Definition M (A : Type) : Type := State -> Outcome A * State.

Definition ret {A} (a : A) : M A := fun s => (Returned a, s).

Definition bind {A B} (m : M A) (k : A -> M B) : M B :=
  fun s =>
    match m s with
    | (Returned a, s') => k a s'
    | (Raised e, s') => (Raised e, s')
    | (OutOfFuel, s') => (OutOfFuel, s')
    end.

Definition raise {A} (e : Exn) : M A := fun s => (Raised e, s).
Definition out_of_fuel {A} : M A := fun s => (OutOfFuel, s).

Notation "x <- m ;; k" := (bind m (fun x => k))
  (at level 61, m at next level, right associativity).
Notation "m ;; k" := (bind m (fun _ => k))
  (at level 61, right associativity).

Definition print (line : string) : M unit :=
  fun s => (Returned tt,
            mkState (quotes_data s) (cache s) (fetched s)
                    (stdout s ++ [line]) (written s)).

(** [time.sleep]: no effect on the state modelled here. *)
Definition sleep : M unit := ret tt.

Definition get_cache : M Dict := fun s => (Returned (cache s), s).

Definition set_cache (k v : string) : M unit :=
  fun s => (Returned tt,
            mkState (quotes_data s) (dict_set k v (cache s)) (fetched s)
                    (stdout s) (written s)).

Definition append_quote (q : Quote) : M unit :=
  fun s => (Returned tt,
            mkState (quotes_data s ++ [q]) (cache s) (fetched s)
                    (stdout s) (written s)).

Definition get_quotes : M (list Quote) :=
  fun s => (Returned (quotes_data s), s).

(** Writing to a file replaces what it held. *)
Fixpoint file_set (f : string) (rows : list (list string))
         (fs : list (string * list (list string)))
  : list (string * list (list string)) :=
  match fs with
  | [] => [(f, rows)]
  | (f', rows') :: fs' =>
      if String.eqb f f' then (f, rows) :: fs'
      else (f', rows') :: file_set f rows fs'
  end.


(** The rows go to the file [f] that has been opened. *)
Definition store_rows (f : string) (rows : list (list string)) : M unit :=
  fun s => (Returned tt,
            mkState (quotes_data s) (cache s) (fetched s)
                    (stdout s) (file_set f rows (written s))).

(** The addresses requested so far. *)
Definition history (s : State) : list string := map f_url (fetched s).

(* ================================================================= *)
(** ** The program *)

Definition BASE_URL : string := "https://quotes.toscrape.com".

(** [x.get_text(strip=True)] where [x] is the result of a [select_one]:
    on [None] the attribute access raises. *)
Definition get_text (x : option string) : M string :=
  match x with
  | Some t => ret t
  | None => raise AttributeError
  end.

(** [str(n)] as an f-string prints it. *)
Definition str_of_nat (n : nat) : string :=
  NilZero.string_of_uint (Nat.to_uint n).

(** One row of the quotes file: the tags are joined with a semicolon. *)
Definition quote_row (q : Quote) : list string :=
  [text q; author q; String.concat ";" (tags q)].

Definition bio_row (kv : string * string) : list string :=
  [fst kv; snd kv].

(** [while current_page:] tests the truth value of a [str] or [None]:
    [None] and the empty string are false.  The result is the string the
    body then works with. *)
Definition truthy (current_page : option string) : option string :=
  match current_page with
  | Some "" => None
  | Some p => Some p
  | None => None
  end.

(** How one execution of the body of the [while] loop ends. *)
Inductive Ctl :=
| Break
| Continue (current_page : option string).

Section Program.

(** [urllib.parse.urljoin], a library function: the joined address, or
    [None] where it raises [ValueError] (a reference whose authority has an
    unmatched bracket, for one). *)
Variable urljoin : string -> string -> option string.

(** The network: the answer to a request for an address, which may depend
    on the requests made before it. *)
Variable web : list string -> string -> Response.

(** The file system: the file a path denotes when it is opened for writing,
    or [None] where [open] raises an [OSError] (missing directory, a
    directory in place of the file, no permission). *)
Variable open_file : string -> option string.

(** [urljoin(BASE_URL, ref)]. *)
Definition join (ref : string) : M string :=
  match urljoin BASE_URL ref with
  | Some url => ret url
  | None => raise ValueError
  end.

(** [with open(path, "w", ...) as f] and the [writerow] calls in it. *)
Definition write_csv (path : string) (rows : list (list string)) : M unit :=
  match open_file path with
  | Some f => store_rows f rows
  | None => raise OSError
  end.

(** [requests.get], [raise_for_status] and the parser, with the call
    recorded. *)
Definition request (who : Caller) (url : string) : M Response :=
  fun s =>
    let r := web (history s) url in
    (Returned r,
     mkState (quotes_data s) (cache s)
             (fetched s ++ [mkFetch who url r]) (stdout s) (written s)).

Definition get_soup (who : Caller) (url : string) : M (option Document) :=
  r <- request who url ;;
  match r with
  | Ok d => ret (Some d)
  | Failed e =>
      print ("Error fetching " ++ url ++ ": " ++ e) ;;
      ret None
  end.

(** [scrape_author_bio(bio_relative_url, cache)]; the dict argument is
    the one of the state. *)
Definition scrape_author_bio (bio_relative_url : string) : M string :=
  c <- get_cache ;;
  match dict_get bio_relative_url c with
  | Some v => ret v
  | None =>
      full_url <- join bio_relative_url ;;
      soup <- get_soup (FromBio bio_relative_url) full_url ;;
      match soup with
      | Some d =>
          match d_author_description d with
          | Some t =>
              set_cache bio_relative_url t ;;
              sleep ;;
              ret t
          | None => ret ""
          end
      | None => ret ""
      end
  end.

(** The body of [for block in quote_blocks]. *)
Definition process_block (block : Block) : M unit :=
  t <- get_text (b_text block) ;;
  author_name <- get_text (b_author block) ;;
  append_quote (mkQuote t author_name (b_tags block)) ;;
  match select_about_link block with
  | Some bio_url => scrape_author_bio bio_url ;; ret tt
  | None => ret tt
  end.

Fixpoint for_blocks (quote_blocks : list Block) : M unit :=
  match quote_blocks with
  | [] => ret tt
  | block :: rest => process_block block ;; for_blocks rest
  end.

(** The body of [while current_page]. *)
Definition loop_body (current_page : string) : M Ctl :=
  url <- join current_page ;;
  print ("Scraping page: " ++ url) ;;
  soup <- get_soup FromMain url ;;
  match soup with
  | None => ret Break
  | Some d =>
      for_blocks (d_quotes d) ;;
      match d_next d with
      | Some (Some href) => sleep ;; ret (Continue (Some href))
      | Some None => raise (KeyError "href")
      | None => ret (Continue None)
      end
  end.

(** The [while] loop; the result is the value of [current_page] when the
    loop is left.  The loop has no bound of its own, hence the fuel. *)
Fixpoint crawl (fuel : nat) (current_page : option string)
  : M (option string) :=
  match truthy current_page with
  | None => ret current_page
  | Some p =>
      match fuel with
      | O => out_of_fuel
      | S fuel' =>
          c <- loop_body p ;;
          match c with
          | Break => ret current_page
          | Continue next => crawl fuel' next
          end
      end
  end.

(** What [main] does after the loop: both files and the messages. *)
Definition finish (output_csv_path : string) : M unit :=
  quotes <- get_quotes ;;
  print ("Writing " ++ str_of_nat (length quotes)
         ++ " quotes to " ++ output_csv_path ++ "...") ;;
  write_csv output_csv_path
    (["text"; "author"; "tags"] :: map quote_row quotes) ;;
  author_bio_cache <- get_cache ;;
  print ("Writing " ++ str_of_nat (length author_bio_cache)
         ++ " author biographies to " ++ "authors.csv" ++ "...") ;;
  write_csv "authors.csv"
    (["author_url"; "biography"] :: map bio_row author_bio_cache) ;;
  print "Done.".

(** [quotes_data = []] and [author_bio_cache = {}]. *)
Definition fresh_locals : M unit :=
  fun s => (Returned tt,
            mkState [] [] (fetched s) (stdout s) (written s)).

Definition main (fuel : nat) (output_csv_path : string) : M unit :=
  fresh_locals ;;
  print "Starting scrape..." ;;
  crawl fuel (Some "/page/1/") ;;
  finish output_csv_path.

End Program.

(** The state the program starts in. *)
Definition initial : State := mkState [] [] [] [] [].

(* ================================================================= *)
(** ** Concrete sites, for the examples *)

Module Site.

(** The authority of a reference that starts with two slashes: what
    follows them, up to the next slash, question mark or hash. *)
Fixpoint authority (s : string) : string :=
  match s with
  | EmptyString => EmptyString
  | String c s' =>
      if (Ascii.eqb c "/" || Ascii.eqb c "?" || Ascii.eqb c "#")%bool
      then EmptyString
      else String c (authority s')
  end.

(** An instance of [urljoin] for the examples: the base is the [https]
    origin of the program, without a path, and the reference is empty, an
    absolute path, a plain relative path, or two slashes followed by an
    authority and a path.  In the last case an authority with a bracket
    that is not matched is rejected, as [urljoin] does with
    [ValueError("Invalid IPv6 URL")]. *)
Definition urljoin (base ref : string) : option string :=
  match ref with
  | EmptyString => Some base
  | String "/"%char (String "/"%char rest) =>
      if xorb (contains "[" (authority rest)) (contains "]" (authority rest))
      then None
      else Some ("https:" ++ ref)
  | String "/"%char _ => Some (base ++ ref)
  | _ => Some (base ++ "/" ++ ref)
  end.

(** The file system of the examples: every path can be opened and paths
    that differ denote different files. *)
Definition open_file (path : string) : option string := Some path.

(** A file system in which [authors.csv] is a directory. *)
Definition authors_is_directory (path : string) : option string :=
  if String.eqb path "authors.csv" then None else Some path.

Definition quote_block (t a : string) (tgs : list string)
           (about : string) : Block :=
  mkBlock (Some t) (Some a) tgs [Some about].

Definition page (bs : list Block) (next : option (option string))
  : Document :=
  mkDocument bs next None.

Definition bio_page (description : string) : Document :=
  mkDocument [] None (Some description).

(** A site given by a table of addresses; any other address fails. *)
Fixpoint lookup (table : list (string * Document)) (url : string)
  : Response :=
  match table with
  | [] => Failed "404 Client Error"
  | (u, d) :: rest => if String.eqb url u then Ok d else lookup rest url
  end.

Definition static (table : list (string * Document))
  : list string -> string -> Response :=
  fun _ url => lookup table url.

Definition einstein_key : string := "/author/Albert-Einstein".
Definition rowling_key : string := "/author/J-K-Rowling".

Definition einstein : Block :=
  quote_block "The world as we have created it is a process of our thinking."
              "Albert Einstein" ["change"; "deep-thoughts"; "change"]
              einstein_key.

Definition rowling : Block :=
  quote_block "It is our choices, Harry, that show what we truly are."
              "J.K. Rowling" ["abilities"; "choices"] rowling_key.

Definition page1_url : string := "https://quotes.toscrape.com/page/1/".
Definition page2_url : string := "https://quotes.toscrape.com/page/2/".
Definition einstein_url : string :=
  "https://quotes.toscrape.com/author/Albert-Einstein".
Definition rowling_url : string :=
  "https://quotes.toscrape.com/author/J-K-Rowling".

Definition first_page : Document :=
  page [einstein; rowling; einstein] (Some (Some "/page/2/")).
Definition second_page : Document := page [einstein] None.

(** Two pages and both biographies. *)
Definition two_pages : list (string * Document) :=
  [ (page1_url, first_page);
    (page2_url, second_page);
    (einstein_url, bio_page "Bio-A");
    (rowling_url, bio_page "Bio-B") ].

(** One page quoting Einstein twice; his biography page is missing. *)
Definition bio_missing : list (string * Document) :=
  [ (page1_url, page [einstein; einstein] None) ].


(** A block without the [.text] element. *)
Definition no_text : Block :=
  mkBlock None (Some "Jane Austen") ["books"] [Some "/author/Jane-Austen"].

(** A page whose "next" link has an empty [href]. *)
Definition empty_next_page : Document :=
  page [einstein] (Some (Some "")).

(** A page of three blocks, the second without its text. *)
Definition malformed : list (string * Document) :=
  [ (page1_url, page [einstein; no_text; rowling] None);
    (einstein_url, bio_page "Bio-A");
    (rowling_url, bio_page "Bio-B") ].

Definition empty_next : list (string * Document) :=
  [ (page1_url, empty_next_page);
    (einstein_url, bio_page "Bio-A") ].

(** A well-formed block whose author link [urljoin] rejects. *)
Definition bad_link : Block :=
  quote_block "A day without sunshine is like, you know, night."
              "Steve Martin" ["humor"] "//[/author/x".


(** Two pages, the first with a block that has no text. *)
Definition malformed_chain : list (string * Document) :=
  [ (page1_url, page [einstein; no_text] (Some (Some "/page/2/")));
    (page2_url, second_page);
    (einstein_url, bio_page "Bio-A") ].



End Site.

(* ================================================================= *)
(** ** Vocabulary for the properties *)

(** The entry a biography request leaves in the dict: one only when the
    page was fetched and has the description element. *)
Definition bio_entry (k : string) (r : Response) : Dict :=
  match r with
  | Ok d =>
      match d_author_description d with
      | Some t => [(k, t)]
      | None => []
      end
  | Failed _ => []
  end.

(** The string such a call returns. *)
Definition bio_text (r : Response) : string :=
  match r with
  | Ok d =>
      match d_author_description d with
      | Some t => t
      | None => ""
      end
  | Failed _ => ""
  end.

(** The line [get_soup] prints. *)
Definition error_lines (url : string) (r : Response) : list string :=
  match r with
  | Ok _ => []
  | Failed e => ["Error fetching " ++ url ++ ": " ++ e]
  end.

(** A reference [urljoin] accepts. *)
Definition joins (urljoin : string -> string -> option string)
           (ref : string) : bool :=
  match urljoin BASE_URL ref with Some _ => true | None => false end.

(** A block whose author link, if it has one, [urljoin] accepts. *)
Definition joinable (urljoin : string -> string -> option string)
           (b : Block) : bool :=
  match select_about_link b with
  | Some h => joins urljoin h
  | None => true
  end.

(** A key counts as resolved once the dict has an entry for it. *)
Definition resolved (k : string) (s : State) : bool := dict_mem k (cache s).

(** Requests made by the loop of [main]. *)
Definition is_page (f : Fetch) : bool :=
  match f_caller f with FromMain => true | FromBio _ => false end.

(** Requests made by [scrape_author_bio] for the key [k]. *)
Definition is_bio (k : string) (f : Fetch) : bool :=
  match f_caller f with FromMain => false | FromBio k' => String.eqb k k' end.

(** Those of them whose answer is stored: a page with the description. *)
Definition stores_bio (k : string) (f : Fetch) : bool :=
  is_bio k f &&
  match bio_entry k (f_response f) with [] => false | _ :: _ => true end.

(** The addresses the loop of [main] requested, oldest first. *)
Definition pages_fetched (s : State) : list string :=
  map f_url (filter is_page (fetched s)).

(** How often [get_soup] was called with the address [url]. *)
Definition fetch_count (url : string) (s : State) : nat :=
  length (filter (fun f => String.eqb url (f_url f)) (fetched s)).

(** No request for [k] follows one whose answer was stored. *)
Fixpoint settled (k : string) (tr : list Fetch) : bool :=
  match tr with
  | [] => true
  | f :: tr' =>
      (if stores_bio k f then forallb (fun g => negb (is_bio k g)) tr'
       else true)
      && settled k tr'
  end.

(** The invariant behind single flight: the log is settled for [k], and a
    stored answer for [k] in the log means [k] is in the dict. *)
Definition flight_inv (k : string) (c : Dict) (tr : list Fetch) : Prop :=
  settled k tr = true /\
  (existsb (stores_bio k) tr = true -> dict_mem k c = true).

(** A quote block with both elements the loop reads unconditionally. *)
Definition well_formed (b : Block) : bool :=
  match b_text b, b_author b with
  | Some _, Some _ => true
  | _, _ => false
  end.

(** The record a well-formed block gives rise to. *)
Inductive yields : Block -> Quote -> Prop :=
| yields_intro (t a : string) (tgs : list string)
               (anchors : list (option string)) :
    yields (mkBlock (Some t) (Some a) tgs anchors) (mkQuote t a tgs).

(** The state once the record of a block has been appended. *)
Definition appended (q : Quote) (s : State) : State :=
  mkState (quotes_data s ++ [q]) (cache s) (fetched s) (stdout s)
          (written s).

(** Invariants that speak of the dict and the request log only. *)
Definition net_inv (P : Dict -> list Fetch -> Prop) (s : State) : Prop :=
  P (cache s) (fetched s).

Definition preserves {A} (I : State -> Prop) (m : M A) : Prop :=
  forall s, I s -> I (snd (m s)).

(** The state in which the blocks of the page at the address [url] are
    processed: the page has been announced and requested. *)
Definition page_opened (web : list string -> string -> Response)
           (url : string) (s : State) : State :=
  snd ((print ("Scraping page: " ++ url) ;; get_soup web FromMain url) s).

(** How a chain of pages ends: its last page has no "next" element, or the
    request for the page after the listed ones, at [address], fails. *)
Inductive Ending :=
| Exhausted
| FetchFails (current_page address cause : string).

(** The value of [current_page] when the loop is left. *)
Definition final_cursor (en : Ending) : option string :=
  match en with
  | Exhausted => None
  | FetchFails p _ _ => Some p
  end.

Section Chains.

Variable urljoin : string -> string -> option string.
Variable web : list string -> string -> Response.

(** The reference [p] joins to the address [url], where the page [d] is
    always served. *)
Definition serves (p url : string) (d : Document) : Prop :=
  urljoin BASE_URL p = Some url /\ forall h, web h url = Ok d.

(** [chain p ds en urls]: starting at the reference [p] the site serves
    the pages [ds], each linking to the following one by a non-empty "next"
    reference, and ends as [en] says; [urls] are the addresses this takes
    the loop to, in order. *)
Inductive chain : string -> list Document -> Ending -> list string -> Prop :=
| chain_last (p url : string) (d : Document) :
    p <> "" -> serves p url d -> d_next d = None ->
    chain p [d] Exhausted [url]
| chain_fail (p url e : string) :
    p <> "" -> urljoin BASE_URL p = Some url ->
    (forall h, web h url = Failed e) ->
    chain p [] (FetchFails p url e) [url]
| chain_next (p url next : string) (d : Document) (ds : list Document)
             (en : Ending) (urls : list string) :
    p <> "" -> serves p url d -> d_next d = Some (Some next) ->
    chain next ds en urls ->
    chain p (d :: ds) en (url :: urls).

End Chains.

(** All quote blocks of a list of pages, in crawl order. *)
Definition all_blocks (ds : list Document) : list Block :=
  flat_map d_quotes ds.




(** The entries the biography requests of a log left in the dict: those of
    the requests whose answer was a page with the description, in order. *)
Definition log_entries (tr : list Fetch) : Dict :=
  flat_map (fun f =>
              match f_caller f with
              | FromBio k => bio_entry k (f_response f)
              | FromMain => []
              end) tr.

(** The keys of a dict, in order. *)
Definition keys (d : Dict) : list string := map fst d.

(** A key that the selector of the author link can have produced. *)
Definition author_key (k : string) : bool := contains "/author/" k.


Definition bio_rows (c : Dict) : list (list string) :=
  ["author_url"; "biography"] :: map bio_row c.

(** A string without the character that separates the tags in a row. *)
Fixpoint no_semicolon (s : string) : bool :=
  match s with
  | EmptyString => true
  | String c s' => negb (Ascii.eqb c ";"%char) && no_semicolon s'
  end.


(** From here on [++] is the concatenation of lists. *)
Open Scope list_scope.

(* ================================================================= *)
(** ** Dictionaries: lookups after an assignment *)

Lemma dict_set_fresh (k v : string) (d : Dict) :
  dict_get k d = None -> dict_set k v d = (d ++ [(k, v)])%list.
Proof.
  induction d as [|[k' v'] d IH]; simpl; intros H; [reflexivity|].
  destruct (String.eqb k k'); [discriminate|].
  now rewrite IH.
Qed.

Lemma dict_get_app (k : string) (d e : Dict) :
  dict_get k (d ++ e)%list =
  match dict_get k d with Some v => Some v | None => dict_get k e end.
Proof.
  induction d as [|[k' v'] d IH]; simpl; [reflexivity|].
  now destruct (String.eqb k k').
Qed.

Lemma dict_get_app_keep (k v : string) (d e : Dict) :
  dict_get k d = Some v -> dict_get k (d ++ e)%list = Some v.
Proof. intros H. now rewrite dict_get_app, H. Qed.

(* ================================================================= *)
(** ** What a call of [scrape_author_bio] does *)

Section Cache.

Variable urljoin : string -> string -> option string.
Variable web : list string -> string -> Response.

Local Notation "'scrape'" := (scrape_author_bio urljoin web).

(** [get_soup] records the request, prints on failure and returns. *)
Lemma get_soup_eq (who : Caller) (url : string) (s : State) :
  let r := web (history s) url in
  get_soup web who url s =
  (Returned (match r with Ok d => Some d | Failed _ => None end),
   mkState (quotes_data s) (cache s)
           (fetched s ++ [mkFetch who url r])
           (stdout s ++ error_lines url r) (written s)).
Proof.
  unfold get_soup, bind, request.
  destruct (web (history s) url) as [d|e]; cbn.
  - now rewrite app_nil_r.
  - reflexivity.
Qed.

(** The key is in the dict: its value is returned at once. *)
Lemma scrape_hit (k v : string) (s : State) :
  dict_get k (cache s) = Some v ->
  scrape k s = (Returned v, s).
Proof.
  intros H. unfold scrape_author_bio, bind, get_cache. now rewrite H.
Qed.

(** The key is not in the dict and [urljoin] rejects it. *)
Lemma scrape_reject (k : string) (s : State) :
  dict_get k (cache s) = None ->
  urljoin BASE_URL k = None ->
  scrape k s = (Raised ValueError, s).
Proof.
  intros H Hj. unfold scrape_author_bio.
  unfold bind at 1. unfold get_cache. rewrite H.
  unfold bind, join. now rewrite Hj.
Qed.

(** The key is not in the dict and joins to the address [url]. *)
Lemma scrape_miss (k url : string) (s : State) :
  dict_get k (cache s) = None ->
  urljoin BASE_URL k = Some url ->
  scrape k s =
  (Returned (bio_text (web (history s) url)),
   mkState (quotes_data s)
           (cache s ++ bio_entry k (web (history s) url))%list
           (fetched s ++ [mkFetch (FromBio k) url (web (history s) url)])
           (stdout s ++ error_lines url (web (history s) url)) (written s)).
Proof.
  intros H Hj.
  unfold scrape_author_bio.
  unfold bind at 1. unfold get_cache. rewrite H.
  unfold bind at 1. unfold join. rewrite Hj. cbn [ret].
  unfold bind at 1. rewrite get_soup_eq.
  destruct (web (history s) url) as [d|e]; cbn.
  - destruct (d_author_description d) as [t|]; cbn.
    + now rewrite dict_set_fresh.
    + now rewrite !app_nil_r.
  - now rewrite app_nil_r.
Qed.

(** The three ways a call can go. *)
Lemma scrape_cases (k : string) (s : State) :
  (exists v, dict_get k (cache s) = Some v /\ scrape k s = (Returned v, s))
  \/ (dict_get k (cache s) = None /\ urljoin BASE_URL k = None
      /\ scrape k s = (Raised ValueError, s))
  \/ (dict_get k (cache s) = None
      /\ exists url,
          urljoin BASE_URL k = Some url
          /\ scrape k s =
             (Returned (bio_text (web (history s) url)),
              mkState (quotes_data s)
                (cache s ++ bio_entry k (web (history s) url))%list
                (fetched s ++ [mkFetch (FromBio k) url (web (history s) url)])
                (stdout s ++ error_lines url (web (history s) url))
                (written s))).
Proof.
  destruct (dict_get k (cache s)) as [v|] eqn:E.
  - left. exists v. split; [reflexivity | now apply scrape_hit].
  - right. destruct (urljoin BASE_URL k) as [url|] eqn:Hj.
    + right. split; [reflexivity|]. exists url.
      split; [reflexivity | now apply scrape_miss].
    + left. repeat split. now apply scrape_reject.
Qed.

(** A call for a key that joins returns. *)
Lemma scrape_returns (k : string) (s : State) :
  joins urljoin k = true ->
  exists b s', scrape k s = (Returned b, s').
Proof.
  unfold joins. intros Hj.
  destruct (scrape_cases k s) as [[v [_ ->]] | [[_ [Hn _]] | [_ [u [_ ->]]]]].
  - now exists v, s.
  - now rewrite Hn in Hj.
  - eexists. eexists. reflexivity.
Qed.

(** It touches neither the records nor the files. *)
Lemma scrape_frame (k : string) (s : State) :
  quotes_data (snd (scrape k s)) = quotes_data s /\
  written (snd (scrape k s)) = written s.
Proof.
  destruct (scrape_cases k s) as [[v [_ ->]] | [[_ [_ ->]] | [_ [u [_ ->]]]]];
    now split.
Qed.

(** The dict after a call: unchanged, or one entry for [k] appended. *)
Lemma scrape_cache (k : string) (s : State) :
  cache (snd (scrape k s)) = cache s \/
  (dict_get k (cache s) = None /\
   exists t, cache (snd (scrape k s)) = (cache s ++ [(k, t)])%list).
Proof.
  destruct (scrape_cases k s) as [[v [_ ->]] | [[_ [_ ->]] | [E [u [_ ->]]]]].
  - now left.
  - now left.
  - cbn. destruct (web (history s) u) as [d|e]; cbn.
    + destruct (d_author_description d) as [t|]; cbn.
      * right. split; [exact E|]. now exists t.
      * left. apply app_nil_r.
    + left. apply app_nil_r.
Qed.

Lemma scrape_keeps (k k' v : string) (s : State) :
  dict_get k' (cache s) = Some v ->
  dict_get k' (cache (snd (scrape k s))) = Some v.
Proof.
  intros H. destruct (scrape_cache k s) as [-> | [_ [t ->]]]; [exact H|].
  now apply dict_get_app_keep.
Qed.

End Cache.

(* ================================================================= *)
(** ** The monad *)

Lemma bind_returned {A B} (m : M A) (k : A -> M B) (s s' : State) (a : A) :
  m s = (Returned a, s') -> bind m k s = k a s'.
Proof. intros H. unfold bind. now rewrite H. Qed.

Lemma bind_raised {A B} (m : M A) (k : A -> M B) (s s' : State) (e : Exn) :
  m s = (Raised e, s') -> bind m k s = (Raised e, s').
Proof. intros H. unfold bind. now rewrite H. Qed.

Lemma preserves_ret {A} (I : State -> Prop) (a : A) : preserves I (ret a).
Proof. intros s H. exact H. Qed.

Lemma preserves_raise {A} (I : State -> Prop) (e : Exn) :
  preserves I (@raise A e).
Proof. intros s H. exact H. Qed.

Lemma preserves_bind {A B} (I : State -> Prop) (m : M A) (k : A -> M B) :
  preserves I m -> (forall a, preserves I (k a)) -> preserves I (bind m k).
Proof.
  intros Hm Hk s H. unfold bind.
  specialize (Hm s H). destruct (m s) as [[a|e|] s']; cbn in *.
  - now apply Hk.
  - exact Hm.
  - exact Hm.
Qed.

Lemma preserves_out_of_fuel {A} (I : State -> Prop) :
  preserves I (@out_of_fuel A).
Proof. intros s H. exact H. Qed.

Create HintDb inv.
#[local] Hint Resolve preserves_ret preserves_raise preserves_out_of_fuel
  preserves_bind : inv.

(* ================================================================= *)
(** ** Invariants of the dict and the request log along a crawl *)

Section Invariant.

Variable urljoin : string -> string -> option string.
Variable web : list string -> string -> Response.
Variable P : Dict -> list Fetch -> Prop.

Hypothesis P_page :
  forall c tr url r, P c tr -> P c (tr ++ [mkFetch FromMain url r]).
Hypothesis P_bio :
  forall k, preserves (net_inv P) (scrape_author_bio urljoin web k).

Lemma inv_print (line : string) : preserves (net_inv P) (print line).
Proof. intros s H. exact H. Qed.

Lemma inv_append_quote (q : Quote) : preserves (net_inv P) (append_quote q).
Proof. intros s H. exact H. Qed.

Lemma inv_get_text (x : option string) : preserves (net_inv P) (get_text x).
Proof. destruct x; cbn; auto with inv. Qed.

Lemma inv_get_soup_main (url : string) :
  preserves (net_inv P) (get_soup web FromMain url).
Proof.
  intros s H. rewrite get_soup_eq. cbn. now apply P_page.
Qed.

Lemma inv_process_block (b : Block) :
  preserves (net_inv P) (process_block urljoin web b).
Proof.
  unfold process_block.
  apply preserves_bind; [apply inv_get_text | intros t].
  apply preserves_bind; [apply inv_get_text | intros a].
  apply preserves_bind; [apply inv_append_quote | intros _].
  destruct (select_about_link b); auto with inv.
Qed.

Lemma inv_for_blocks (bs : list Block) :
  preserves (net_inv P) (for_blocks urljoin web bs).
Proof.
  induction bs as [|b bs IH]; cbn [for_blocks]; auto with inv.
  apply preserves_bind; [apply inv_process_block | intros _; exact IH].
Qed.

Lemma inv_join (ref : string) : preserves (net_inv P) (join urljoin ref).
Proof. unfold join. destruct (urljoin BASE_URL ref); auto with inv. Qed.

Lemma inv_loop_body (p : string) :
  preserves (net_inv P) (loop_body urljoin web p).
Proof.
  unfold loop_body.
  apply preserves_bind; [apply inv_join | intros url].
  apply preserves_bind; [apply inv_print | intros _].
  apply preserves_bind; [apply inv_get_soup_main | intros [d|]];
    auto with inv.
  apply preserves_bind; [apply inv_for_blocks | intros _].
  destruct (d_next d) as [[href|]|]; unfold sleep; auto with inv.
Qed.

Lemma inv_crawl (fuel : nat) (current_page : option string) :
  preserves (net_inv P) (crawl urljoin web fuel current_page).
Proof.
  revert current_page.
  induction fuel as [|fuel IH]; intros cp; cbn [crawl];
    destruct (truthy cp); auto with inv.
  apply preserves_bind; [apply inv_loop_body | intros [|next]];
    auto with inv.
Qed.

End Invariant.

(* ================================================================= *)
(** ** Request logs in which stored keys are not requested again *)

Lemma stores_is_bio (k : string) (f : Fetch) :
  stores_bio k f = true -> is_bio k f = true.
Proof. unfold stores_bio. now intros [H _]%andb_prop. Qed.

Lemma settled_snoc (k : string) (tr : list Fetch) (g : Fetch) :
  settled k (tr ++ [g]) =
  settled k tr && (negb (existsb (stores_bio k) tr) || negb (is_bio k g)).
Proof.
  induction tr as [|f tr IH]; cbn [app settled existsb].
  - cbn. now destruct (stores_bio k g).
  - rewrite IH, forallb_app. cbn [forallb].
    destruct (stores_bio k f),
      (forallb (fun g0 => negb (is_bio k g0)) tr), (settled k tr),
      (existsb (stores_bio k) tr), (is_bio k g); reflexivity.
Qed.

Lemma settled_split (k : string) (pre post : list Fetch) (f : Fetch) :
  settled k (pre ++ f :: post) = true ->
  stores_bio k f = true ->
  forallb (fun g => negb (is_bio k g)) post = true.
Proof.
  induction pre as [|g pre IH]; cbn [app settled]; intros H Hf.
  - rewrite Hf in H. now apply andb_prop in H.
  - apply andb_prop in H. now apply IH.
Qed.

Lemma settled_count (k : string) (tr : list Fetch) :
  settled k tr = true -> length (filter (stores_bio k) tr) <= 1.
Proof.
  induction tr as [|f tr IH]; cbn [settled filter]; intros H; [cbn; lia|].
  apply andb_prop in H as [Hf Htr].
  destruct (stores_bio k f) eqn:E; [|now apply IH].
  assert (filter (stores_bio k) tr = []) as ->; [|cbn; lia].
  clear -Hf. induction tr as [|g tr IH]; cbn in *; [reflexivity|].
  apply andb_prop in Hf as [Hg Htr].
  destruct (stores_bio k g) eqn:Eg; [|now apply IH].
  apply stores_is_bio in Eg. now rewrite Eg in Hg.
Qed.

Lemma flight_inv_page (k : string) (c : Dict) (tr : list Fetch)
      (url : string) (r : Response) :
  flight_inv k c tr -> flight_inv k c (tr ++ [mkFetch FromMain url r]).
Proof.
  intros [Hs Hc]. split.
  - rewrite settled_snoc, Hs. cbn. apply orb_true_r.
  - rewrite existsb_app. cbn. now rewrite !orb_false_r.
Qed.

Lemma is_bio_event (k k0 url : string) (r : Response) :
  is_bio k (mkFetch (FromBio k0) url r) = String.eqb k k0.
Proof. reflexivity. Qed.

Lemma stores_bio_event (k k0 url : string) (r : Response) :
  stores_bio k (mkFetch (FromBio k0) url r) =
  String.eqb k k0 && match bio_entry k r with [] => false | _ :: _ => true end.
Proof. reflexivity. Qed.

Lemma bio_entry_stored (k : string) (r : Response) (c : Dict) :
  match bio_entry k r with [] => false | _ :: _ => true end = true ->
  dict_get k c = None ->
  dict_mem k (c ++ bio_entry k r)%list = true.
Proof.
  intros Hr E. unfold dict_mem. rewrite dict_get_app, E.
  unfold bio_entry in *. destruct r as [d|e]; [|discriminate].
  destruct (d_author_description d); [|discriminate].
  cbn. now rewrite String.eqb_refl.
Qed.

Lemma flight_inv_bio (urljoin : string -> string -> option string)
      (web : list string -> string -> Response) (k k0 : string) :
  preserves (net_inv (flight_inv k)) (scrape_author_bio urljoin web k0).
Proof.
  intros s [Hs Hc]. unfold net_inv.
  destruct (scrape_cases urljoin web k0 s)
    as [[v [_ ->]] | [[_ [_ ->]] | [E [url [_ ->]]]]];
    [now split | now split |].
  cbn [snd cache fetched].
  set (r := web (history s) url).
  unfold flight_inv. rewrite settled_snoc, existsb_app, Hs.
  cbn [existsb]. rewrite orb_false_r, is_bio_event, stores_bio_event.
  destruct (String.eqb_spec k k0) as [->|Hne].
  + assert (existsb (stores_bio k0) (fetched s) = false) as Hno.
    { destruct (existsb (stores_bio k0) (fetched s)); [|reflexivity].
      specialize (Hc eq_refl). unfold dict_mem in Hc.
      now rewrite E in Hc. }
    rewrite Hno. split; [reflexivity|]. cbn [orb andb].
    intros Hr. now apply bio_entry_stored.
  + cbn [andb negb]. rewrite orb_true_r, orb_false_r.
    split; [reflexivity|].
    intros H. specialize (Hc H). unfold dict_mem in *.
    destruct (dict_get k (cache s)) as [v|] eqn:Ek; [|discriminate].
    now rewrite (dict_get_app_keep _ _ _ _ Ek).
Qed.

Lemma inv_finish (open_file : string -> option string)
      (P : Dict -> list Fetch -> Prop) (path : string) :
  preserves (net_inv P) (finish open_file path).
Proof.
  assert (forall p rows, preserves (net_inv P) (write_csv open_file p rows))
    as Hwrite.
  { intros p rows s H. unfold write_csv.
    destruct (open_file p); exact H. }
  unfold finish.
  apply preserves_bind; [intros s H; exact H | intros quotes].
  apply preserves_bind; [intros s H; exact H | intros _].
  apply preserves_bind; [apply Hwrite | intros _].
  apply preserves_bind; [intros s H; exact H | intros c].
  apply preserves_bind; [intros s H; exact H | intros _].
  apply preserves_bind; [apply Hwrite | intros _].
  intros s H. exact H.
Qed.

(* ================================================================= *)
(** ** The biography cache *)

(** A key is resolved after a call exactly when it was resolved before or
    the request, made for the address the key joins to, returned a page
    with the description element. *)
Lemma resolved_after (urljoin : string -> string -> option string)
      (web : list string -> string -> Response) (k : string) (s : State) :
  resolved k (snd (scrape_author_bio urljoin web k s)) =
  resolved k s
  || match urljoin BASE_URL k with
     | Some url =>
         match bio_entry k (web (history s) url) with
         | [] => false
         | _ :: _ => true
         end
     | None => false
     end.
Proof.
  unfold resolved, dict_mem.
  destruct (scrape_cases urljoin web k s)
    as [[v [E ->]] | [[E [Hj ->]] | [E [url [Hj ->]]]]]; cbn [snd cache].
  - now rewrite E.
  - now rewrite E, Hj.
  - rewrite dict_get_app, E, Hj. cbn [orb].
    unfold bio_entry. destruct (web (history s) url) as [d|e];
      [|reflexivity].
    destruct (d_author_description d); [|reflexivity].
    cbn. now rewrite String.eqb_refl.
Qed.

(** C5.  Idempotence of [scrape_author_bio]: when the first call for a key
    resolved it (the key is in the cache afterwards, because it was cached
    already or the page with its description was fetched), a second call in
    sequence returns the same biography and leaves the whole state as it
    was, so it makes no request. *)
Theorem resolve_twice_same_bio
        (urljoin : string -> string -> option string)
        (web : list string -> string -> Response) (k : string) (s : State) :
  resolved k (snd (scrape_author_bio urljoin web k s)) = true ->
  fst (scrape_author_bio urljoin web k
         (snd (scrape_author_bio urljoin web k s)))
  = fst (scrape_author_bio urljoin web k s)
  /\ snd (scrape_author_bio urljoin web k
            (snd (scrape_author_bio urljoin web k s)))
     = snd (scrape_author_bio urljoin web k s)
  /\ fetched (snd (scrape_author_bio urljoin web k
                     (snd (scrape_author_bio urljoin web k s))))
     = fetched (snd (scrape_author_bio urljoin web k s)).
Proof.
  intros Hres.
  assert (exists v, dict_get k (cache (snd (scrape_author_bio urljoin web k s)))
                    = Some v
                    /\ fst (scrape_author_bio urljoin web k s) = Returned v)
    as [v [Hv Hfst]].
  { unfold resolved, dict_mem in Hres.
    destruct (scrape_cases urljoin web k s)
      as [[v [E H]] | [[E [_ H]] | [E [url [_ H]]]]];
      rewrite H in *; cbn [snd fst cache] in *.
    - now exists v.
    - now rewrite E in Hres.
    - rewrite dict_get_app, E in *.
      unfold bio_entry, bio_text in *.
      destruct (web (history s) url) as [d|e]; [|discriminate].
      destruct (d_author_description d) as [t|]; [|discriminate].
      exists t. cbn. now rewrite String.eqb_refl. }
  rewrite (scrape_hit _ _ _ _ _ Hv). cbn [fst snd]. now rewrite Hfst.
Qed.

Lemma resolve_twice_same_bio_witness :
  resolved Site.einstein_key
    (snd (scrape_author_bio Site.urljoin (Site.static Site.two_pages)
            Site.einstein_key initial)) = true
  /\ (fst (scrape_author_bio Site.urljoin (Site.static Site.two_pages)
             Site.einstein_key
             (snd (scrape_author_bio Site.urljoin
                     (Site.static Site.two_pages) Site.einstein_key initial)))
      = fst (scrape_author_bio Site.urljoin (Site.static Site.two_pages)
               Site.einstein_key initial)
      /\ snd (scrape_author_bio Site.urljoin (Site.static Site.two_pages)
                Site.einstein_key
                (snd (scrape_author_bio Site.urljoin
                        (Site.static Site.two_pages) Site.einstein_key
                        initial)))
         = snd (scrape_author_bio Site.urljoin (Site.static Site.two_pages)
                  Site.einstein_key initial)
      /\ fetched (snd (scrape_author_bio Site.urljoin
                         (Site.static Site.two_pages) Site.einstein_key
                         (snd (scrape_author_bio Site.urljoin
                                 (Site.static Site.two_pages)
                                 Site.einstein_key initial))))
         = fetched (snd (scrape_author_bio Site.urljoin
                           (Site.static Site.two_pages) Site.einstein_key
                           initial))).
Proof.
  split; [reflexivity|].
  apply (resolve_twice_same_bio Site.urljoin (Site.static Site.two_pages)
           Site.einstein_key initial).
  reflexivity.
Defined.

(** C6.  A failed biography request is not cached: when the key is not in
    the dict and the request for the address it joins to fails, the call
    returns the empty string, the dict is left as it was (without the key),
    and the next call for the same key requests the page again. *)
Theorem failed_bio_fetch_not_cached
        (urljoin : string -> string -> option string)
        (web : list string -> string -> Response)
        (k url cause : string) (s : State) :
  dict_get k (cache s) = None ->
  urljoin BASE_URL k = Some url ->
  web (history s) url = Failed cause ->
  fst (scrape_author_bio urljoin web k s) = Returned ""%string
  /\ cache (snd (scrape_author_bio urljoin web k s)) = cache s
  /\ dict_mem k (cache (snd (scrape_author_bio urljoin web k s))) = false
  /\ fetched (snd (scrape_author_bio urljoin web k
                     (snd (scrape_author_bio urljoin web k s))))
     = fetched (snd (scrape_author_bio urljoin web k s))
       ++ [mkFetch (FromBio k) url
             (web (history (snd (scrape_author_bio urljoin web k s))) url)].
Proof.
  intros E Hj Hfail.
  rewrite (scrape_miss _ _ _ _ _ E Hj), Hfail.
  cbn [fst snd cache bio_text bio_entry].
  rewrite app_nil_r. unfold dict_mem. rewrite E.
  repeat split.
  match goal with
  | |- context [scrape_author_bio urljoin web k ?s1] =>
      assert (dict_get k (cache s1) = None) as E1 by exact E;
      rewrite (scrape_miss _ _ _ _ _ E1 Hj)
  end.
  reflexivity.
Qed.

Lemma failed_bio_fetch_not_cached_witness :
  dict_get Site.einstein_key (cache initial) = None
  /\ Site.urljoin BASE_URL Site.einstein_key = Some Site.einstein_url
  /\ Site.static Site.bio_missing (history initial) Site.einstein_url
     = Failed "404 Client Error"
  /\ fst (scrape_author_bio Site.urljoin (Site.static Site.bio_missing)
            Site.einstein_key initial) = Returned ""%string.
Proof.
  split; [reflexivity|]. split; [reflexivity|]. split; [reflexivity|].
  apply (failed_bio_fetch_not_cached Site.urljoin
           (Site.static Site.bio_missing) Site.einstein_key
           Site.einstein_url "404 Client Error" initial); reflexivity.
Defined.

(** C10.  The cache only grows.  A call of [scrape_author_bio] leaves the
    dict as it was or appends one entry, for the queried key, which had
    none; an existing entry is neither replaced nor removed, by one call or
    by any number of iterations of the loop of [main]. *)
Theorem cache_grows_monotonically
        (urljoin : string -> string -> option string)
        (web : list string -> string -> Response) :
  (forall k s,
      cache (snd (scrape_author_bio urljoin web k s)) = cache s
      \/ (dict_get k (cache s) = None
          /\ exists t,
               cache (snd (scrape_author_bio urljoin web k s))
               = cache s ++ [(k, t)]))
  /\ (forall k s k' v,
         dict_get k' (cache s) = Some v ->
         dict_get k' (cache (snd (scrape_author_bio urljoin web k s)))
         = Some v)
  /\ (forall fuel current_page s k v,
         dict_get k (cache s) = Some v ->
         dict_get k (cache (snd (crawl urljoin web fuel current_page s)))
         = Some v).
Proof.
  split; [|split].
  - intros k s. apply scrape_cache.
  - intros k s k' v. apply scrape_keeps.
  - intros fuel cp s k v H.
    apply (inv_crawl urljoin web (fun c _ => dict_get k c = Some v));
      [auto | | exact H].
    intros k0 s0 H0. now apply scrape_keeps.
Qed.

Lemma cache_grows_monotonically_witness :
  dict_get Site.einstein_key
    (cache (mkState [] [(Site.einstein_key, "Bio-A"%string)] [] [] []))
  = Some "Bio-A"%string
  /\ dict_get Site.einstein_key
       (cache (snd (crawl Site.urljoin (Site.static Site.two_pages) 5
                      (Some "/page/1/"%string)
                      (mkState [] [(Site.einstein_key, "Bio-A"%string)]
                               [] [] []))))
     = Some "Bio-A"%string.
Proof.
  split; [reflexivity|].
  apply (proj2 (proj2 (cache_grows_monotonically Site.urljoin
                         (Site.static Site.two_pages)))).
  reflexivity.
Defined.

(* ================================================================= *)
(** ** Single flight *)

(** The state in which the loop of [main] starts. *)
Lemma main_unfold (urljoin : string -> string -> option string)
      (web : list string -> string -> Response)
      (open_file : string -> option string)
      (fuel : nat) (path : string) :
  main urljoin web open_file fuel path initial =
  (crawl urljoin web fuel (Some "/page/1/"%string) ;; finish open_file path)
    (mkState [] [] [] ["Starting scrape..."%string] []).
Proof. reflexivity. Qed.

(** C1, as the program has it.  In the request log of a run of [main], of
    any length, at most one biography request for a key [k] has its answer
    stored (the page was fetched and has the description element), and no
    request for [k] follows it, however many blocks refer to [k].  Requests
    that fail or find no description are not counted: they are repeated. *)
Theorem single_flight_once_stored
        (urljoin : string -> string -> option string)
        (web : list string -> string -> Response)
        (open_file : string -> option string)
        (fuel : nat) (path k : string) :
  length (filter (stores_bio k)
            (fetched (snd (main urljoin web open_file fuel path initial))))
  <= 1
  /\ forall pre f post,
       fetched (snd (main urljoin web open_file fuel path initial))
       = pre ++ f :: post ->
       stores_bio k f = true ->
       forallb (fun g => negb (is_bio k g)) post = true.
Proof.
  assert (settled k
            (fetched (snd (main urljoin web open_file fuel path initial)))
          = true) as H.
  { rewrite main_unfold.
    apply (preserves_bind (net_inv (flight_inv k))).
    - apply inv_crawl.
      + apply flight_inv_page.
      + intros k0. apply flight_inv_bio.
    - intros _. apply inv_finish.
    - split; [reflexivity | discriminate]. }
  split.
  - now apply settled_count.
  - intros pre f post E Hf. rewrite E in H. now apply settled_split in H.
Qed.

Lemma single_flight_once_stored_witness :
  length (filter (stores_bio Site.einstein_key)
            (fetched (snd (main Site.urljoin (Site.static Site.two_pages)
                             Site.open_file 5 "quotes.csv" initial)))) <= 1.
Proof.
  apply (proj1 (single_flight_once_stored Site.urljoin
                  (Site.static Site.two_pages) Site.open_file 5
                  "quotes.csv" Site.einstein_key)).
Defined.

(** C1, as stated, fails: Einstein's biography page cannot be fetched and
    two blocks of the page refer to it, so [get_soup] is called twice with
    its address. *)
Lemma missing_bio_fetched_twice :
  ~ (fetch_count Site.einstein_url
       (snd (main Site.urljoin (Site.static Site.bio_missing)
               Site.open_file 3 "quotes.csv" initial)) <= 1).
Proof. vm_compute. lia. Qed.

(* ================================================================= *)
(** ** Extraction of the blocks of a page *)

Lemma well_formed_yields (b : Block) :
  well_formed b = true -> exists q, yields b q.
Proof.
  destruct b as [[t|] [a|] tgs anchors]; cbn; try discriminate.
  intros _. eexists. constructor.
Qed.

Lemma all_well_formed_yield (bs : list Block) :
  forallb well_formed bs = true -> exists qs, Forall2 yields bs qs.
Proof.
  induction bs as [|b bs IH]; cbn; intros H.
  - exists []. constructor.
  - apply andb_prop in H as [Hb Hbs].
    destruct (well_formed_yields b Hb) as [q Hq].
    destruct (IH Hbs) as [qs Hqs].
    exists (q :: qs). now constructor.
Qed.

Lemma yields_tags (bs : list Block) (qs : list Quote) :
  Forall2 yields bs qs -> map tags qs = map b_tags bs.
Proof.
  induction 1 as [|b q bs qs Hq _ IH]; cbn; [reflexivity|].
  destruct Hq. cbn. now rewrite IH.
Qed.


Lemma select_about_link_author_key (b : Block) (h : string) :
  select_about_link b = Some h -> author_key h = true.
Proof.
  unfold select_about_link.
  destruct (find is_author_link (b_anchors b)) as [[h'|]|] eqn:E;
    try discriminate.
  intros [= ->]. apply find_some in E as [_ E]. exact E.
Qed.

Section Extraction.

Variable urljoin : string -> string -> option string.
Variable web : list string -> string -> Response.

Lemma scrape_pages (k : string) (s : State) :
  pages_fetched (snd (scrape_author_bio urljoin web k s)) = pages_fetched s.
Proof.
  destruct (scrape_cases urljoin web k s)
    as [[v [_ ->]] | [[_ [_ ->]] | [_ [url [_ ->]]]]];
    [reflexivity | reflexivity |].
  unfold pages_fetched. cbn.
  rewrite filter_app. cbn. now rewrite app_nil_r.
Qed.

Lemma process_block_yields (b : Block) (q : Quote) (s : State) :
  yields b q ->
  process_block urljoin web b s =
  match select_about_link b with
  | Some bio_url =>
      (scrape_author_bio urljoin web bio_url ;; ret tt) (appended q s)
  | None => (Returned tt, appended q s)
  end.
Proof.
  intros Hq. destruct Hq as [t a tgs anchors].
  unfold process_block. cbn [b_text b_author b_tags get_text].
  unfold bind at 1. cbn [ret]. unfold bind at 1. cbn [ret].
  unfold bind at 1. cbn [append_quote]. fold (appended (mkQuote t a tgs) s).
  now destruct (select_about_link _) as [h|].
Qed.

Lemma process_block_joinable (b : Block) (q : Quote) (s : State) :
  yields b q ->
  joinable urljoin b = true ->
  process_block urljoin web b s =
  (Returned tt,
   match select_about_link b with
   | Some bio_url =>
       snd (scrape_author_bio urljoin web bio_url (appended q s))
   | None => appended q s
   end).
Proof.
  intros Hq Hj. rewrite (process_block_yields b q s Hq).
  unfold joinable in Hj.
  destruct (select_about_link b) as [h|]; [|reflexivity].
  destruct (scrape_returns urljoin web h (appended q s) Hj) as [bio [s' E]].
  unfold bind. now rewrite E.
Qed.

Lemma process_block_effect (b : Block) (q : Quote) (s : State) :
  yields b q ->
  joinable urljoin b = true ->
  exists s',
    process_block urljoin web b s = (Returned tt, s')
    /\ quotes_data s' = quotes_data s ++ [q]
    /\ pages_fetched s' = pages_fetched s
    /\ written s' = written s.
Proof.
  intros Hq Hj. rewrite (process_block_joinable b q s Hq Hj).
  eexists. split; [reflexivity|].
  destruct (select_about_link b) as [h|].
  - destruct (scrape_frame urljoin web h (appended q s)) as [Hd Hw].
    now rewrite Hd, Hw, scrape_pages.
  - now repeat split.
Qed.

Lemma for_blocks_effect (bs : list Block) (qs : list Quote) (s : State) :
  Forall2 yields bs qs ->
  forallb (joinable urljoin) bs = true ->
  exists s',
    for_blocks urljoin web bs s = (Returned tt, s')
    /\ quotes_data s' = quotes_data s ++ qs
    /\ pages_fetched s' = pages_fetched s
    /\ written s' = written s.
Proof.
  intros H. revert s.
  induction H as [|b q bs qs Hq _ IH]; intros s Hj; cbn [for_blocks].
  - exists s. now rewrite app_nil_r.
  - cbn in Hj. apply andb_prop in Hj as [Hb Hbs].
    destruct (process_block_effect b q s Hq Hb) as [s1 [E1 [Hd1 [Hp1 Hw1]]]].
    destruct (IH s1 Hbs) as [s2 [E2 [Hd2 [Hp2 Hw2]]]].
    exists s2. rewrite (bind_returned _ _ _ _ _ E1).
    split; [exact E2|].
    rewrite Hd2, Hd1, Hp2, Hp1, Hw2, Hw1, <- app_assoc. now repeat split.
Qed.

End Extraction.

Lemma for_blocks_returns
      (urljoin : string -> string -> option string)
      (web : list string -> string -> Response)
      (bs : list Block) (s : State) :
  forallb well_formed bs = true ->
  forallb (joinable urljoin) bs = true ->
  exists s', for_blocks urljoin web bs s = (Returned tt, s').
Proof.
  intros Hwf Hj. destruct (all_well_formed_yield bs Hwf) as [qs Hqs].
  destruct (for_blocks_effect urljoin web bs qs s Hqs Hj) as [s' [E _]].
  now exists s'.
Qed.

(** C7, as the program has it.  A page of [N] quote blocks, all well-formed
    and with author links that [urljoin] accepts, yields exactly [N]
    records, appended to [quotes_data] in document order: the i-th new
    record has the text and author of the i-th block and its tag elements
    as they stand, in order and with duplicates. *)
Theorem extraction_in_document_order
        (urljoin : string -> string -> option string)
        (web : list string -> string -> Response)
        (bs : list Block) (s : State) :
  forallb well_formed bs = true ->
  forallb (joinable urljoin) bs = true ->
  exists qs s',
    for_blocks urljoin web bs s = (Returned tt, s')
    /\ quotes_data s' = quotes_data s ++ qs
    /\ length qs = length bs
    /\ Forall2 yields bs qs
    /\ map tags qs = map b_tags bs.
Proof.
  intros Hwf Hj. destruct (all_well_formed_yield bs Hwf) as [qs Hqs].
  destruct (for_blocks_effect urljoin web bs qs s Hqs Hj) as [s' [E [Hd _]]].
  exists qs, s'. repeat split; try assumption.
  - symmetry. eapply Forall2_length. eassumption.
  - now apply yields_tags.
Qed.

Lemma extraction_in_document_order_witness :
  forallb well_formed [Site.einstein; Site.rowling; Site.einstein] = true
  /\ forallb (joinable Site.urljoin)
       [Site.einstein; Site.rowling; Site.einstein] = true
  /\ exists qs s',
      for_blocks Site.urljoin (Site.static Site.two_pages)
        [Site.einstein; Site.rowling; Site.einstein] initial
      = (Returned tt, s')
      /\ quotes_data s' = quotes_data initial ++ qs
      /\ length qs = length [Site.einstein; Site.rowling; Site.einstein]
      /\ Forall2 yields [Site.einstein; Site.rowling; Site.einstein] qs
      /\ map tags qs
         = map b_tags [Site.einstein; Site.rowling; Site.einstein].
Proof.
  split; [reflexivity|]. split; [reflexivity|].
  apply (extraction_in_document_order Site.urljoin
           (Site.static Site.two_pages)
           [Site.einstein; Site.rowling; Site.einstein] initial);
    reflexivity.
Defined.

(** C7, as stated, fails: three well-formed blocks, the second with an
    author link that [urljoin] rejects.  The record of the second block has
    been appended when its biography is looked up; [urljoin] raises
    [ValueError] there, and the third block yields no record. *)
Lemma unjoinable_link_stops_extraction :
  forallb well_formed [Site.einstein; Site.bad_link; Site.rowling] = true
  /\ fst (for_blocks Site.urljoin (Site.static Site.two_pages)
            [Site.einstein; Site.bad_link; Site.rowling] initial)
     = Raised ValueError
  /\ length (quotes_data
               (snd (for_blocks Site.urljoin (Site.static Site.two_pages)
                       [Site.einstein; Site.bad_link; Site.rowling]
                       initial))) = 2.
Proof. vm_compute. repeat split. Qed.

(** C3, as the program has it.  When every quote block of the document has
    both its text and its author-name element, and an author link that
    [urljoin] accepts if it has one, the loop over the blocks finishes
    without raising, whatever the network answers to the biography
    requests, and every block has added a record. *)
Theorem extraction_returns_when_well_formed
        (urljoin : string -> string -> option string)
        (web : list string -> string -> Response)
        (bs : list Block) (s : State) :
  forallb well_formed bs = true ->
  forallb (joinable urljoin) bs = true ->
  fst (for_blocks urljoin web bs s) = Returned tt
  /\ length (quotes_data (snd (for_blocks urljoin web bs s)))
     = length (quotes_data s) + length bs.
Proof.
  intros Hwf Hj. destruct (all_well_formed_yield bs Hwf) as [qs Hqs].
  destruct (for_blocks_effect urljoin web bs qs s Hqs Hj) as [s' [E [Hd _]]].
  rewrite E. cbn [fst snd]. split; [reflexivity|].
  rewrite Hd, length_app. f_equal. symmetry.
  eapply Forall2_length. eassumption.
Qed.

Lemma extraction_returns_when_well_formed_witness :
  forallb well_formed [Site.einstein; Site.rowling] = true
  /\ forallb (joinable Site.urljoin) [Site.einstein; Site.rowling] = true
  /\ (fst (for_blocks Site.urljoin (Site.static Site.bio_missing)
             [Site.einstein; Site.rowling] initial) = Returned tt
      /\ length (quotes_data
                   (snd (for_blocks Site.urljoin
                           (Site.static Site.bio_missing)
                           [Site.einstein; Site.rowling] initial)))
         = length (quotes_data initial)
           + length [Site.einstein; Site.rowling]).
Proof.
  split; [reflexivity|]. split; [reflexivity|].
  apply (extraction_returns_when_well_formed Site.urljoin
           (Site.static Site.bio_missing)
           [Site.einstein; Site.rowling] initial); reflexivity.
Defined.

(** C3, as stated, fails: on a page of three blocks whose second block has
    no text element the program stops with [AttributeError]; the block is
    not skipped, the third block yields no record and nothing is written. *)
Lemma malformed_block_raises :
  fst (main Site.urljoin (Site.static Site.malformed) Site.open_file 3
            "quotes.csv" initial)
  = Raised AttributeError
  /\ length (quotes_data
               (snd (main Site.urljoin (Site.static Site.malformed)
                          Site.open_file 3 "quotes.csv" initial))) = 1
  /\ written (snd (main Site.urljoin (Site.static Site.malformed)
                        Site.open_file 3 "quotes.csv" initial)) = [].
Proof. vm_compute. repeat split. Qed.




(* ================================================================= *)
(** ** The pagination loop *)

Lemma truthy_nonempty (p : string) :
  p <> ""%string -> truthy (Some p) = Some p.
Proof. destruct p; [congruence | reflexivity]. Qed.

Lemma chain_urls_length (urljoin : string -> string -> option string)
      (web : list string -> string -> Response)
      (p : string) (ds : list Document) (en : Ending) (urls : list string) :
  chain urljoin web p ds en urls ->
  length urls =
  length ds + match en with Exhausted => 0 | FetchFails _ _ _ => 1 end.
Proof.
  induction 1 as [p u d _ _ _ | p u e _ _ _ | p u next d ds en urls _ _ _ _ IH];
    cbn [length].
  - reflexivity.
  - reflexivity.
  - now rewrite IH.
Qed.


Section Loop.

Variable urljoin : string -> string -> option string.
Variable web : list string -> string -> Response.

Lemma page_opened_eq (url : string) (s : State) :
  page_opened web url s =
  mkState (quotes_data s) (cache s)
    (fetched s ++ [mkFetch FromMain url (web (history s) url)])
    ((stdout s ++ ["Scraping page: " ++ url]%string)
     ++ error_lines url (web (history s) url))
    (written s).
Proof.
  unfold page_opened. unfold bind, print.
  rewrite get_soup_eq. reflexivity.
Qed.

(** The body of the loop on a reference [urljoin] rejects. *)
Lemma loop_body_reject (p : string) (s : State) :
  urljoin BASE_URL p = None ->
  loop_body urljoin web p s = (Raised ValueError, s).
Proof. intros Hj. unfold loop_body, bind, join. now rewrite Hj. Qed.

(** The body of the loop on a page that is served. *)
Lemma loop_body_served (p url : string) (d : Document) (s : State) :
  urljoin BASE_URL p = Some url ->
  web (history s) url = Ok d ->
  loop_body urljoin web p s =
  (for_blocks urljoin web (d_quotes d) ;;
   match d_next d with
   | Some (Some href) => sleep ;; ret (Continue (Some href))
   | Some None => raise (KeyError "href")
   | None => ret (Continue None)
   end) (page_opened web url s).
Proof.
  intros Hj Hweb. rewrite page_opened_eq.
  unfold loop_body. unfold bind at 1. unfold join. rewrite Hj. cbn [ret].
  unfold bind at 1. unfold print at 1.
  unfold bind at 1. rewrite get_soup_eq.
  unfold history in *. cbn [fetched quotes_data cache stdout written].
  now rewrite Hweb.
Qed.

(** The body of the loop on a page that cannot be fetched. *)
Lemma loop_body_failed (p url cause : string) (s : State) :
  urljoin BASE_URL p = Some url ->
  web (history s) url = Failed cause ->
  loop_body urljoin web p s = (Returned Break, page_opened web url s).
Proof.
  intros Hj Hweb. rewrite page_opened_eq.
  unfold loop_body. unfold bind at 1. unfold join. rewrite Hj. cbn [ret].
  unfold bind at 1. unfold print at 1.
  unfold bind at 1. rewrite get_soup_eq.
  unfold history in *. cbn [fetched quotes_data cache stdout written].
  now rewrite Hweb.
Qed.

Lemma page_opened_pages (url : string) (s : State) :
  pages_fetched (page_opened web url s) = pages_fetched s ++ [url].
Proof.
  rewrite page_opened_eq. unfold pages_fetched. cbn [fetched].
  now rewrite filter_app, map_app.
Qed.

(** One iteration on a served page of well-formed blocks with author links
    that join. *)
Lemma loop_body_effect (p url : string) (d : Document) (qs : list Quote)
      (s : State) :
  urljoin BASE_URL p = Some url ->
  web (history s) url = Ok d ->
  Forall2 yields (d_quotes d) qs ->
  forallb (joinable urljoin) (d_quotes d) = true ->
  exists s',
    s' = snd (for_blocks urljoin web (d_quotes d) (page_opened web url s))
    /\ loop_body urljoin web p s =
       (match d_next d with
        | Some (Some href) => Returned (Continue (Some href))
        | Some None => Raised (KeyError "href")
        | None => Returned (Continue None)
        end, s')
    /\ quotes_data s' = quotes_data s ++ qs
    /\ pages_fetched s' = pages_fetched s ++ [url]
    /\ written s' = written s.
Proof.
  intros Hj Hweb Hqs Hjoin. rewrite (loop_body_served p url d s Hj Hweb).
  destruct (for_blocks_effect urljoin web (d_quotes d) qs
              (page_opened web url s) Hqs Hjoin)
    as [s' [E [Hd [Hp Hw]]]].
  exists s'. rewrite E. cbn [snd]. split; [reflexivity|].
  rewrite (bind_returned _ _ _ _ _ E).
  split; [now destruct (d_next d) as [[href|]|]|].
  rewrite Hd, Hp, Hw, page_opened_pages, page_opened_eq.
  now repeat split.
Qed.

End Loop.

Lemma crawl_falsy (urljoin : string -> string -> option string)
      (web : list string -> string -> Response)
      (fuel : nat) (current_page : option string) (s : State) :
  truthy current_page = None ->
  crawl urljoin web fuel current_page s = (Returned current_page, s).
Proof. intros H. destruct fuel; cbn [crawl]; now rewrite H. Qed.

(** The loop along a chain of pages of well-formed blocks with author
    links that join. *)
Lemma crawl_chain (urljoin : string -> string -> option string)
      (web : list string -> string -> Response)
      (p : string) (ds : list Document) (en : Ending) (urls : list string) :
  chain urljoin web p ds en urls ->
  forall (qs : list Quote) (s : State),
    Forall2 yields (all_blocks ds) qs ->
    forallb (joinable urljoin) (all_blocks ds) = true ->
    exists s',
      (forall fuel,
          length urls <= fuel ->
          crawl urljoin web fuel (Some p) s = (Returned (final_cursor en), s'))
      /\ quotes_data s' = quotes_data s ++ qs
      /\ pages_fetched s' = pages_fetched s ++ urls
      /\ written s' = written s
      /\ match en with
         | Exhausted => True
         | FetchFails _ address cause =>
             In ("Error fetching " ++ address ++ ": " ++ cause)%string
                (stdout s')
         end.
Proof.
  induction 1 as [p u d Hp [Hj Hd] Hn | p u e Hp Hj Hf
                  | p u next d ds en urls Hp [Hj Hd] Hn _ IH];
    intros qs s Hqs Hjoin.
  - unfold all_blocks in Hqs, Hjoin. cbn [flat_map] in Hqs, Hjoin.
    rewrite app_nil_r in Hqs, Hjoin.
    destruct (loop_body_effect urljoin web p u d qs s Hj (Hd _) Hqs Hjoin)
      as [s' [_ [E [Hq [Hpg Hw]]]]].
    rewrite Hn in E. exists s'.
    repeat split; try assumption.
    intros [|fuel] Hfuel; [cbn in Hfuel; lia|].
    cbn [crawl]. rewrite (truthy_nonempty p Hp).
    rewrite (bind_returned _ _ _ _ _ E). now apply crawl_falsy.
  - inversion Hqs; subst qs.
    exists (page_opened web u s).
    rewrite page_opened_pages, page_opened_eq, Hf.
    cbn [quotes_data written stdout error_lines].
    rewrite app_nil_r. repeat split.
    + intros [|fuel] Hfuel; [cbn in Hfuel; lia|].
      cbn [crawl]. rewrite (truthy_nonempty p Hp).
      rewrite (bind_returned _ _ _ _ _
                 (loop_body_failed urljoin web p u e s Hj (Hf _))).
      now rewrite page_opened_eq, Hf.
    + apply in_or_app. right. now left.
  - unfold all_blocks in Hqs, Hjoin. cbn [flat_map] in Hqs, Hjoin.
    apply Forall2_app_inv_l in Hqs as [q1 [q2 [Hq1 [Hq2 ->]]]].
    rewrite forallb_app in Hjoin. apply andb_prop in Hjoin as [Hjoin1 Hjoin2].
    destruct (loop_body_effect urljoin web p u d q1 s Hj (Hd _) Hq1 Hjoin1)
      as [s1 [_ [E [Hq [Hpg Hw]]]]].
    rewrite Hn in E.
    destruct (IH q2 s1 Hq2 Hjoin2) as [s' [Hrun [Hq' [Hpg' [Hw' Hen]]]]].
    exists s'.
    rewrite Hq', Hq, Hpg', Hpg, Hw', Hw, <- !app_assoc.
    repeat split; try assumption.
    intros [|fuel] Hfuel; [cbn in Hfuel; lia|].
    cbn [crawl]. rewrite (truthy_nonempty p Hp).
    rewrite (bind_returned _ _ _ _ _ E).
    apply Hrun. cbn in Hfuel. lia.
Qed.

(** C4, as the program has it.  Termination on a finite chain.  When the
    site serves a chain of [M] pages, each page but the last linking to the
    next by a non-empty "next" reference and the last having no "next"
    element, and all quote blocks of these pages are well-formed with
    author links that [urljoin] accepts, the loop, given at least [M] units
    of fuel, returns with [current_page] equal to [None] after exactly [M]
    page requests. *)
Theorem crawl_terminates_on_chain
        (urljoin : string -> string -> option string)
        (web : list string -> string -> Response)
        (p : string) (ds : list Document) (urls : list string) (s : State) :
  chain urljoin web p ds Exhausted urls ->
  forallb well_formed (all_blocks ds) = true ->
  forallb (joinable urljoin) (all_blocks ds) = true ->
  1 <= length ds
  /\ exists s',
      (forall fuel,
          length ds <= fuel ->
          crawl urljoin web fuel (Some p) s = (Returned None, s'))
      /\ pages_fetched s' = pages_fetched s ++ urls
      /\ length (pages_fetched s') = length (pages_fetched s) + length ds
      /\ length (filter is_page (fetched s'))
         = length (filter is_page (fetched s)) + length ds.
Proof.
  intros Hch Hwf Hjoin. split.
  - inversion Hch; cbn; lia.
  - destruct (all_well_formed_yield _ Hwf) as [qs Hqs].
    destruct (crawl_chain urljoin web p ds Exhausted urls Hch qs s Hqs Hjoin)
      as [s' [Hrun [_ [Hpg _]]]].
    pose proof (chain_urls_length urljoin web p ds Exhausted urls Hch)
      as Hlen.
    rewrite Nat.add_0_r in Hlen.
    assert (length (pages_fetched s') = length (pages_fetched s) + length ds)
      as Hcount.
    { now rewrite Hpg, length_app, Hlen. }
    exists s'. split; [|split; [|split]].
    + intros fuel Hfuel. apply Hrun. now rewrite Hlen.
    + exact Hpg.
    + exact Hcount.
    + unfold pages_fetched in Hcount. now rewrite !length_map in Hcount.
Qed.

Lemma two_pages_chain :
  chain Site.urljoin (Site.static Site.two_pages) "/page/1/"
        [Site.first_page; Site.second_page] Exhausted
        [Site.page1_url; Site.page2_url].
Proof.
  apply chain_next with (next := "/page/2/"%string).
  - discriminate.
  - split; [reflexivity | intros h; reflexivity].
  - reflexivity.
  - apply chain_last;
      [discriminate | split; [reflexivity | intros h; reflexivity]
       | reflexivity].
Defined.

Lemma crawl_terminates_on_chain_witness :
  1 <= length [Site.first_page; Site.second_page]
  /\ exists s',
      (forall fuel,
          length [Site.first_page; Site.second_page] <= fuel ->
          crawl Site.urljoin (Site.static Site.two_pages) fuel
                (Some "/page/1/"%string) initial
          = (Returned None, s'))
      /\ pages_fetched s'
         = pages_fetched initial ++ [Site.page1_url; Site.page2_url]
      /\ length (pages_fetched s')
         = length (pages_fetched initial)
           + length [Site.first_page; Site.second_page]
      /\ length (filter is_page (fetched s'))
         = length (filter is_page (fetched initial))
           + length [Site.first_page; Site.second_page].
Proof.
  apply (crawl_terminates_on_chain Site.urljoin (Site.static Site.two_pages)
           "/page/1/" [Site.first_page; Site.second_page]
           [Site.page1_url; Site.page2_url] initial).
  - exact two_pages_chain.
  - reflexivity.
  - reflexivity.
Defined.

(** C4, as stated, fails: a chain of two served pages, the first linking to
    the second and the second without "next" element, whose first page has
    a block without text.  The loop stops with [AttributeError] on the
    first page, after one page request instead of two. *)
Lemma malformed_page_breaks_chain :
  chain Site.urljoin (Site.static Site.malformed_chain) "/page/1/"
        [Site.page [Site.einstein; Site.no_text]
                   (Some (Some "/page/2/"%string));
         Site.second_page]
        Exhausted [Site.page1_url; Site.page2_url]
  /\ fst (crawl Site.urljoin (Site.static Site.malformed_chain) 5
            (Some "/page/1/"%string) initial) = Raised AttributeError
  /\ pages_fetched (snd (crawl Site.urljoin
                           (Site.static Site.malformed_chain) 5
                           (Some "/page/1/"%string) initial))
     = [Site.page1_url].
Proof.
  split.
  - apply chain_next with (next := "/page/2/"%string).
    + discriminate.
    + split; [reflexivity | intros h; reflexivity].
    + reflexivity.
    + apply chain_last;
        [discriminate | split; [reflexivity | intros h; reflexivity]
         | reflexivity].
  - vm_compute. split; reflexivity.
Qed.

Lemma for_blocks_pages (urljoin : string -> string -> option string)
      (web : list string -> string -> Response)
      (bs : list Block) (s : State) :
  pages_fetched (snd (for_blocks urljoin web bs s)) = pages_fetched s.
Proof.
  apply (inv_for_blocks urljoin web
           (fun _ tr => map f_url (filter is_page tr) = pages_fetched s)).
  - intros k s0 H0.
    change (pages_fetched (snd (scrape_author_bio urljoin web k s0))
            = pages_fetched s).
    rewrite scrape_pages. exact H0.
  - reflexivity.
Qed.

(** C8.  A "next" link with an empty [href] ends the crawl.  From a page
    that is served and whose "next" element has the empty string as [href],
    the loop does what processing the blocks of that page does and is then
    left with [current_page] equal to the empty string: the only page
    request it makes is the one for this page.  When the blocks are
    well-formed with author links that [urljoin] accepts, processing them
    does not raise and the loop returns. *)
Theorem empty_next_href_is_terminal
        (urljoin : string -> string -> option string)
        (web : list string -> string -> Response)
        (fuel : nat) (p url : string) (d : Document) (s : State) :
  p <> ""%string ->
  urljoin BASE_URL p = Some url ->
  web (history s) url = Ok d ->
  d_next d = Some (Some ""%string) ->
  crawl urljoin web (S fuel) (Some p) s
  = (for_blocks urljoin web (d_quotes d) ;; ret (Some ""%string))
      (page_opened web url s)
  /\ pages_fetched (snd (crawl urljoin web (S fuel) (Some p) s))
     = pages_fetched s ++ [url]
  /\ (forallb well_formed (d_quotes d) = true ->
      forallb (joinable urljoin) (d_quotes d) = true ->
      fst (crawl urljoin web (S fuel) (Some p) s) = Returned (Some ""%string)).
Proof.
  intros Hp Hj Hweb Hn.
  assert (crawl urljoin web (S fuel) (Some p) s
          = (for_blocks urljoin web (d_quotes d) ;; ret (Some ""%string))
              (page_opened web url s)) as Heq.
  { cbn [crawl]. rewrite (truthy_nonempty p Hp).
    unfold bind at 1. rewrite (loop_body_served urljoin web p url d s Hj Hweb).
    rewrite Hn. unfold bind.
    destruct (for_blocks urljoin web (d_quotes d) (page_opened web url s))
      as [[[]|e|] s']; try reflexivity.
    cbn. now apply crawl_falsy. }
  split; [exact Heq|]. rewrite Heq. split.
  - rewrite <- (page_opened_pages web url s).
    rewrite <- (for_blocks_pages urljoin web (d_quotes d)
                  (page_opened web url s)).
    unfold bind.
    now destruct (for_blocks urljoin web (d_quotes d)
                    (page_opened web url s)) as [[[]|e|] s'].
  - intros Hwf Hjoin.
    destruct (for_blocks_returns urljoin web (d_quotes d)
                (page_opened web url s) Hwf Hjoin) as [s' E].
    unfold bind. now rewrite E.
Qed.

Lemma empty_next_href_is_terminal_witness :
  Site.urljoin BASE_URL "/page/1/" = Some Site.page1_url
  /\ Site.static Site.empty_next (history initial) Site.page1_url
     = Ok Site.empty_next_page
  /\ fst (crawl Site.urljoin (Site.static Site.empty_next) 4
            (Some "/page/1/"%string) initial) = Returned (Some ""%string)
  /\ pages_fetched (snd (crawl Site.urljoin (Site.static Site.empty_next) 4
                           (Some "/page/1/"%string) initial))
     = pages_fetched initial ++ [Site.page1_url].
Proof.
  split; [reflexivity|]. split; [reflexivity|].
  destruct (empty_next_href_is_terminal Site.urljoin
              (Site.static Site.empty_next) 3 "/page/1/" Site.page1_url
              Site.empty_next_page initial)
    as [_ [Hpages Hret]].
  - discriminate.
  - reflexivity.
  - reflexivity.
  - reflexivity.
  - split; [apply Hret; reflexivity | exact Hpages].
Defined.

(* ================================================================= *)
(** ** Writing the files *)



Section Finish.

Variable open_file : string -> option string.




End Finish.

(* ================================================================= *)
(** ** A page that cannot be fetched *)






(* ================================================================= *)
(** ** A whole run *)

(** Two pages: Einstein, Rowling and Einstein on the first, Einstein on the
    second.  The run gives four records, a dict of two biographies in the
    order the authors were met, and two biography requests. *)
Example two_pages_run :
  fst (main Site.urljoin (Site.static Site.two_pages) Site.open_file 2
            "quotes.csv" initial)
  = Returned tt
  /\ length (quotes_data
               (snd (main Site.urljoin (Site.static Site.two_pages)
                          Site.open_file 2 "quotes.csv" initial))) = 4
  /\ cache (snd (main Site.urljoin (Site.static Site.two_pages)
                       Site.open_file 2 "quotes.csv" initial))
     = [(Site.einstein_key, "Bio-A"%string);
        (Site.rowling_key, "Bio-B"%string)]
  /\ map f_url
       (filter (fun f => negb (is_page f))
          (fetched (snd (main Site.urljoin (Site.static Site.two_pages)
                              Site.open_file 2 "quotes.csv" initial))))
     = [Site.einstein_url; Site.rowling_url].
Proof. vm_compute. repeat split. Qed.

(* ================================================================= *)
(** ** Invariants of the whole state along a crawl *)

Section Frame.

Variable urljoin : string -> string -> option string.
Variable web : list string -> string -> Response.
Variable I : State -> Prop.

Hypothesis I_print : forall line, preserves I (print line).
Hypothesis I_append : forall q, preserves I (append_quote q).
Hypothesis I_page : forall url, preserves I (get_soup web FromMain url).
Hypothesis I_bio :
  forall k, author_key k = true ->
            preserves I (scrape_author_bio urljoin web k).

Lemma frame_get_text (x : option string) : preserves I (get_text x).
Proof. destruct x; cbn; auto with inv. Qed.

Lemma frame_process_block (b : Block) :
  preserves I (process_block urljoin web b).
Proof.
  unfold process_block.
  apply preserves_bind; [apply frame_get_text | intros t].
  apply preserves_bind; [apply frame_get_text | intros a].
  apply preserves_bind; [apply I_append | intros _].
  destruct (select_about_link b) as [h|] eqn:E; auto with inv.
  apply preserves_bind; [|auto with inv].
  apply I_bio. now apply select_about_link_author_key with (b := b).
Qed.

Lemma frame_for_blocks (bs : list Block) :
  preserves I (for_blocks urljoin web bs).
Proof.
  induction bs as [|b bs IH]; cbn [for_blocks]; auto with inv.
  apply preserves_bind; [apply frame_process_block | intros _; exact IH].
Qed.

Lemma frame_join (ref : string) : preserves I (join urljoin ref).
Proof. unfold join. destruct (urljoin BASE_URL ref); auto with inv. Qed.

Lemma frame_loop_body (p : string) :
  preserves I (loop_body urljoin web p).
Proof.
  unfold loop_body.
  apply preserves_bind; [apply frame_join | intros url].
  apply preserves_bind; [apply I_print | intros _].
  apply preserves_bind; [apply I_page | intros [d|]]; auto with inv.
  apply preserves_bind; [apply frame_for_blocks | intros _].
  destruct (d_next d) as [[href|]|]; unfold sleep; auto with inv.
Qed.

Lemma frame_crawl (fuel : nat) (current_page : option string) :
  preserves I (crawl urljoin web fuel current_page).
Proof.
  revert current_page.
  induction fuel as [|fuel IH]; intros cp; cbn [crawl];
    destruct (truthy cp); auto with inv.
  apply preserves_bind; [apply frame_loop_body | intros [|next]];
    auto with inv.
Qed.

End Frame.

(* ================================================================= *)
(** ** More on [scrape_author_bio] *)

Lemma scrape_author_bio_requests
      (urljoin : string -> string -> option string)
      (web : list string -> string -> Response) (k : string) (s : State) :
  fetched (snd (scrape_author_bio urljoin web k s)) = fetched s
  \/ exists url r,
       urljoin BASE_URL k = Some url
       /\ fetched (snd (scrape_author_bio urljoin web k s))
          = fetched s ++ [mkFetch (FromBio k) url r].
Proof.
  destruct (scrape_cases urljoin web k s)
    as [[v [_ ->]] | [[_ [_ ->]] | [_ [url [Hj ->]]]]].
  - now left.
  - now left.
  - right. exists url. eexists. split; [exact Hj | reflexivity].
Qed.

(** X1.  The ways a call of [scrape_author_bio] can end.  It raises only
    when the key is not in the dict and [urljoin] rejects it: then it
    raises [ValueError] before any request and leaves the state as it was.
    In every other case it returns a string, whatever the network answers.
    It makes no request or exactly one, for the address the key joins to,
    and it leaves the records, the files and the page requests as they
    were. *)
Theorem scrape_author_bio_outcomes
        (urljoin : string -> string -> option string)
        (web : list string -> string -> Response)
        (k : string) (s : State) :
  (dict_get k (cache s) = None -> urljoin BASE_URL k = None ->
   scrape_author_bio urljoin web k s = (Raised ValueError, s))
  /\ (dict_mem k (cache s) || joins urljoin k = true ->
      exists b, fst (scrape_author_bio urljoin web k s) = Returned b)
  /\ (fetched (snd (scrape_author_bio urljoin web k s)) = fetched s
      \/ exists url r,
          urljoin BASE_URL k = Some url
          /\ fetched (snd (scrape_author_bio urljoin web k s))
             = fetched s ++ [mkFetch (FromBio k) url r])
  /\ quotes_data (snd (scrape_author_bio urljoin web k s)) = quotes_data s
  /\ written (snd (scrape_author_bio urljoin web k s)) = written s
  /\ pages_fetched (snd (scrape_author_bio urljoin web k s))
     = pages_fetched s.
Proof.
  split; [apply scrape_reject|]. split.
  - unfold dict_mem, joins. intros H.
    destruct (scrape_cases urljoin web k s)
      as [[v [_ ->]] | [[E [Hj _]] | [_ [url [_ ->]]]]].
    + now exists v.
    + now rewrite E, Hj in H.
    + eexists. reflexivity.
  - split; [apply scrape_author_bio_requests|].
    destruct (scrape_frame urljoin web k s) as [Hq Hw].
    split; [exact Hq|]. split; [exact Hw|]. apply scrape_pages.
Qed.

Lemma scrape_author_bio_outcomes_witness :
  dict_get "//[/author/x" (cache initial) = None
  /\ Site.urljoin BASE_URL "//[/author/x" = None
  /\ scrape_author_bio Site.urljoin (Site.static Site.two_pages)
       "//[/author/x" initial = (Raised ValueError, initial).
Proof.
  split; [reflexivity|]. split; [reflexivity|].
  apply (proj1 (scrape_author_bio_outcomes Site.urljoin
                  (Site.static Site.two_pages) "//[/author/x" initial));
    reflexivity.
Defined.

(** X2.  A biography page that is fetched but has no description element
    is treated like a failed request, silently: the call returns the empty
    string, prints nothing, stores nothing, and the next call for the key
    requests the page again. *)
Theorem missing_description_not_cached
        (urljoin : string -> string -> option string)
        (web : list string -> string -> Response)
        (k url : string) (d : Document) (s : State) :
  dict_get k (cache s) = None ->
  urljoin BASE_URL k = Some url ->
  web (history s) url = Ok d ->
  d_author_description d = None ->
  fst (scrape_author_bio urljoin web k s) = Returned ""%string
  /\ cache (snd (scrape_author_bio urljoin web k s)) = cache s
  /\ stdout (snd (scrape_author_bio urljoin web k s)) = stdout s
  /\ length (fetched (snd (scrape_author_bio urljoin web k
                             (snd (scrape_author_bio urljoin web k s)))))
     = length (fetched s) + 2.
Proof.
  intros E Hj Hok Hnone.
  rewrite (scrape_miss _ _ _ _ _ E Hj), Hok.
  cbn [fst snd cache stdout bio_text bio_entry error_lines].
  rewrite Hnone, !app_nil_r. repeat split.
  match goal with
  | |- context [scrape_author_bio urljoin web k ?s1] =>
      assert (dict_get k (cache s1) = None) as E1 by exact E;
      rewrite (scrape_miss _ _ _ _ _ E1 Hj)
  end.
  cbn [snd fetched]. rewrite !length_app. cbn. lia.
Qed.

Lemma missing_description_not_cached_witness :
  dict_get "/author/Nobody" (cache initial) = None
  /\ Site.urljoin BASE_URL "/author/Nobody"
     = Some "https://quotes.toscrape.com/author/Nobody"%string
  /\ Site.static [("https://quotes.toscrape.com/author/Nobody"%string,
                   Site.page [] None)]
       (history initial) "https://quotes.toscrape.com/author/Nobody"
     = Ok (Site.page [] None)
  /\ fst (scrape_author_bio Site.urljoin
            (Site.static [("https://quotes.toscrape.com/author/Nobody"%string,
                           Site.page [] None)])
            "/author/Nobody" initial) = Returned ""%string.
Proof.
  split; [reflexivity|]. split; [reflexivity|]. split; [reflexivity|].
  apply (missing_description_not_cached Site.urljoin
           (Site.static [("https://quotes.toscrape.com/author/Nobody"%string,
                          Site.page [] None)])
           "/author/Nobody" "https://quotes.toscrape.com/author/Nobody"
           (Site.page [] None) initial); reflexivity.
Defined.

(** X3.  What a call returns is what the dict then holds: whenever the key
    has an entry after the call, the call returned the value of that
    entry. *)
Theorem returned_bio_is_cached_bio
        (urljoin : string -> string -> option string)
        (web : list string -> string -> Response)
        (k v : string) (s : State) :
  dict_get k (cache (snd (scrape_author_bio urljoin web k s))) = Some v ->
  fst (scrape_author_bio urljoin web k s) = Returned v.
Proof.
  destruct (scrape_cases urljoin web k s)
    as [[v0 [E ->]] | [[E [_ ->]] | [E [url [_ ->]]]]]; cbn [fst snd cache].
  - rewrite E. now intros [= ->].
  - now rewrite E.
  - rewrite dict_get_app, E. unfold bio_entry, bio_text.
    destruct (web (history s) url) as [d|e]; [|discriminate].
    destruct (d_author_description d) as [t|]; [|discriminate].
    cbn. rewrite String.eqb_refl. now intros [= ->].
Qed.

Lemma returned_bio_is_cached_bio_witness :
  dict_get Site.einstein_key
    (cache (snd (scrape_author_bio Site.urljoin (Site.static Site.two_pages)
                   Site.einstein_key initial))) = Some "Bio-A"%string
  /\ fst (scrape_author_bio Site.urljoin (Site.static Site.two_pages)
            Site.einstein_key initial) = Returned "Bio-A"%string.
Proof.
  split; [reflexivity|].
  apply (returned_bio_is_cached_bio Site.urljoin (Site.static Site.two_pages)
           Site.einstein_key "Bio-A" initial).
  reflexivity.
Defined.

(* ================================================================= *)
(** ** The dict of a run *)

Lemma log_entries_app (tr1 tr2 : list Fetch) :
  log_entries (tr1 ++ tr2) = log_entries tr1 ++ log_entries tr2.
Proof. unfold log_entries. apply flat_map_app. Qed.

Lemma dict_get_none_not_key (k : string) (d : Dict) :
  dict_get k d = None -> ~ In k (keys d).
Proof.
  induction d as [|[k' v] d IH]; cbn; intros H; [tauto|].
  destruct (String.eqb_spec k k') as [->|Hne]; [discriminate|].
  intros [Heq|Hin]; [congruence | now apply IH].
Qed.

Lemma NoDup_snoc {A} (l : list A) (a : A) :
  NoDup l -> ~ In a l -> NoDup (l ++ [a]).
Proof.
  intros Hl Ha. induction Hl as [|x l Hx Hl IH]; cbn.
  - constructor; [tauto | constructor].
  - constructor.
    + rewrite in_app_iff. cbn. intros [H|[H|[]]]; [tauto|].
      subst. apply Ha. now left.
    + apply IH. intros H. apply Ha. now right.
Qed.

(** X4.  In a run of [main], of any length and however it ends, the dict is
    exactly the record of the biography requests that were answered with a
    page containing the description: one entry per such request, under the
    key of the request, in the order of the requests. *)
Theorem cache_is_log_of_stored_bios
        (urljoin : string -> string -> option string)
        (web : list string -> string -> Response)
        (open_file : string -> option string)
        (fuel : nat) (path : string) :
  cache (snd (main urljoin web open_file fuel path initial))
  = log_entries (fetched (snd (main urljoin web open_file fuel path initial))).
Proof.
  rewrite main_unfold.
  apply (preserves_bind (net_inv (fun c tr => c = log_entries tr))).
  - apply inv_crawl.
    + intros c tr url r ->. rewrite log_entries_app. cbn.
      now rewrite app_nil_r.
    + intros k s H. unfold net_inv in *.
      destruct (scrape_cases urljoin web k s)
        as [[v [_ ->]] | [[_ [_ ->]] | [_ [url [_ ->]]]]];
        [exact H | exact H |].
      cbn [snd cache fetched].
      rewrite log_entries_app, H. cbn. now rewrite app_nil_r.
  - intros _. apply inv_finish.
  - reflexivity.
Qed.

(** X5.  In a run of [main] no key occurs twice in the dict, so the
    biographies file never has two rows for one [author_url]. *)
Theorem cache_keys_distinct
        (urljoin : string -> string -> option string)
        (web : list string -> string -> Response)
        (open_file : string -> option string)
        (fuel : nat) (path : string) :
  NoDup (keys (cache (snd (main urljoin web open_file fuel path initial)))).
Proof.
  rewrite main_unfold.
  apply (preserves_bind (net_inv (fun c _ => NoDup (keys c)))).
  - apply inv_crawl; [auto|].
    intros k s H. unfold net_inv in *.
    destruct (scrape_cache urljoin web k s) as [-> | [E [t ->]]]; [exact H|].
    unfold keys. rewrite map_app. cbn.
    apply NoDup_snoc; [exact H | now apply dict_get_none_not_key].
  - intros _. apply inv_finish.
  - constructor.
Qed.

(** X6.  In a run of [main] every key of the dict is an [href] the author
    selector matched: it contains [/author/]. *)
Theorem cache_keys_are_author_links
        (urljoin : string -> string -> option string)
        (web : list string -> string -> Response)
        (open_file : string -> option string)
        (fuel : nat) (path : string) :
  Forall (fun k => author_key k = true)
         (keys (cache (snd (main urljoin web open_file fuel path initial)))).
Proof.
  rewrite main_unfold.
  apply (preserves_bind
           (fun s => Forall (fun k => author_key k = true) (keys (cache s)))).
  - apply frame_crawl.
    + intros line s H. exact H.
    + intros q s H. exact H.
    + intros url s H. rewrite get_soup_eq. exact H.
    + intros k Hk s H.
      destruct (scrape_cache urljoin web k s) as [-> | [_ [t ->]]];
        [exact H|].
      unfold keys. rewrite map_app. apply Forall_app. split; [exact H|].
      now repeat constructor.
  - intros _.
    apply (inv_finish open_file
             (fun c _ => Forall (fun k => author_key k = true) (keys c))).
  - constructor.
Qed.

(* ================================================================= *)
(** ** Exceptions *)

Lemma process_block_malformed (urljoin : string -> string -> option string)
      (web : list string -> string -> Response) (b : Block) (s : State) :
  well_formed b = false ->
  process_block urljoin web b s = (Raised AttributeError, s).
Proof.
  destruct b as [[t|] [a|] tgs anchors]; cbn; try discriminate;
    intros _; reflexivity.
Qed.

Lemma for_blocks_app (urljoin : string -> string -> option string)
      (web : list string -> string -> Response)
      (bs1 bs2 : list Block) (s : State) :
  for_blocks urljoin web (bs1 ++ bs2) s
  = (for_blocks urljoin web bs1 ;; for_blocks urljoin web bs2) s.
Proof.
  revert s. induction bs1 as [|b bs1 IH]; intros s; cbn [app for_blocks].
  - reflexivity.
  - unfold bind.
    destruct (process_block urljoin web b s) as [[[]|e|] s1];
      [rewrite IH; reflexivity | reflexivity | reflexivity].
Qed.

Lemma first_block_record :
  Forall2 yields [Site.einstein]
    [mkQuote "The world as we have created it is a process of our thinking."
             "Albert Einstein" ["change"; "deep-thoughts"; "change"]%string].
Proof. repeat constructor. Defined.

(** X7.  The first quote block that lacks its text or its author element
    stops the loop over the blocks with [AttributeError], provided the
    blocks before it are well-formed with author links that [urljoin]
    accepts: their records have been appended, the block itself and the
    blocks after it contribute nothing. *)
Theorem first_malformed_block_raises
        (urljoin : string -> string -> option string)
        (web : list string -> string -> Response)
        (good rest : list Block) (bad : Block) (qs : list Quote)
        (s : State) :
  Forall2 yields good qs ->
  forallb (joinable urljoin) good = true ->
  well_formed bad = false ->
  for_blocks urljoin web (good ++ bad :: rest) s
  = (Raised AttributeError, snd (for_blocks urljoin web good s))
  /\ quotes_data (snd (for_blocks urljoin web (good ++ bad :: rest) s))
     = quotes_data s ++ qs.
Proof.
  intros Hgood Hjoin Hbad.
  destruct (for_blocks_effect urljoin web good qs s Hgood Hjoin)
    as [s1 [E [Hq _]]].
  assert (for_blocks urljoin web (good ++ bad :: rest) s
          = (Raised AttributeError, s1)) as Heq.
  { rewrite for_blocks_app, (bind_returned _ _ _ _ _ E).
    cbn [for_blocks]. unfold bind.
    now rewrite (process_block_malformed urljoin web bad s1 Hbad). }
  rewrite Heq, E. cbn [snd]. now split.
Qed.

Lemma first_malformed_block_raises_witness :
  Forall2 yields [Site.einstein]
    [mkQuote "The world as we have created it is a process of our thinking."
             "Albert Einstein" ["change"; "deep-thoughts"; "change"]%string]
  /\ forallb (joinable Site.urljoin) [Site.einstein] = true
  /\ well_formed Site.no_text = false
  /\ fst (for_blocks Site.urljoin (Site.static Site.two_pages)
            ([Site.einstein] ++ Site.no_text :: [Site.rowling]) initial)
     = Raised AttributeError.
Proof.
  split; [repeat constructor|]. split; [reflexivity|].
  split; [reflexivity|].
  rewrite (proj1 (first_malformed_block_raises Site.urljoin
                    (Site.static Site.two_pages) [Site.einstein]
                    [Site.rowling] Site.no_text _ initial
                    first_block_record eq_refl eq_refl)).
  reflexivity.
Defined.

(** X8.  A "next" link without an [href] attribute stops the crawl with
    [KeyError].  On a served page of well-formed blocks with author links
    that [urljoin] accepts, the blocks have been processed and their
    records appended when the loop is left by the exception, and nothing
    has been written. *)
Theorem next_without_href_raises
        (urljoin : string -> string -> option string)
        (web : list string -> string -> Response)
        (fuel : nat) (p url : string) (d : Document) (qs : list Quote)
        (s : State) :
  p <> ""%string ->
  urljoin BASE_URL p = Some url ->
  web (history s) url = Ok d ->
  d_next d = Some None ->
  Forall2 yields (d_quotes d) qs ->
  forallb (joinable urljoin) (d_quotes d) = true ->
  fst (crawl urljoin web (S fuel) (Some p) s) = Raised (KeyError "href")
  /\ quotes_data (snd (crawl urljoin web (S fuel) (Some p) s))
     = quotes_data s ++ qs
  /\ written (snd (crawl urljoin web (S fuel) (Some p) s)) = written s.
Proof.
  intros Hp Hj Hweb Hn Hqs Hjoin.
  destruct (loop_body_effect urljoin web p url d qs s Hj Hweb Hqs Hjoin)
    as [s' [_ [E [Hq [_ Hw]]]]].
  rewrite Hn in E. cbn [crawl]. rewrite (truthy_nonempty p Hp).
  rewrite (bind_raised _ _ _ _ _ E). now repeat split.
Qed.

Lemma next_without_href_raises_witness :
  Site.urljoin BASE_URL "/page/1/" = Some Site.page1_url
  /\ Site.static [(Site.page1_url, Site.page [Site.einstein] (Some None))]
       (history initial) Site.page1_url
     = Ok (Site.page [Site.einstein] (Some None))
  /\ fst (crawl Site.urljoin
            (Site.static [(Site.page1_url,
                           Site.page [Site.einstein] (Some None))])
            1 (Some "/page/1/"%string) initial)
     = Raised (KeyError "href").
Proof.
  split; [reflexivity|]. split; [reflexivity|].
  eapply (next_without_href_raises Site.urljoin
            (Site.static [(Site.page1_url,
                           Site.page [Site.einstein] (Some None))])
            0 "/page/1/" Site.page1_url
            (Site.page [Site.einstein] (Some None)) _ initial).
  - discriminate.
  - reflexivity.
  - reflexivity.
  - reflexivity.
  - exact first_block_record.
  - reflexivity.
Defined.

(* ================================================================= *)
(** ** The files of a run *)






(* ================================================================= *)
(** ** What the loop does not do *)

(** X11.  The loop does not notice a cycle.  When a page that is always
    served links to itself, and its quote blocks are well-formed with
    author links that [urljoin] accepts, the loop requests it again at
    every iteration and never ends: whatever fuel it is given, it uses it
    all, with one page request per unit. *)
Theorem self_link_never_terminates
        (urljoin : string -> string -> option string)
        (web : list string -> string -> Response)
        (p url : string) (d : Document) :
  p <> ""%string ->
  serves urljoin web p url d ->
  d_next d = Some (Some p) ->
  forallb well_formed (d_quotes d) = true ->
  forallb (joinable urljoin) (d_quotes d) = true ->
  forall fuel s,
    fst (crawl urljoin web fuel (Some p) s) = OutOfFuel
    /\ length (pages_fetched (snd (crawl urljoin web fuel (Some p) s)))
       = length (pages_fetched s) + fuel.
Proof.
  intros Hp [Hj Hserve] Hn Hwf Hjoin.
  destruct (all_well_formed_yield _ Hwf) as [qs Hqs].
  induction fuel as [|fuel IH]; intros s; cbn [crawl];
    rewrite (truthy_nonempty p Hp).
  - cbn. split; [reflexivity | lia].
  - destruct (loop_body_effect urljoin web p url d qs s Hj (Hserve _)
                Hqs Hjoin)
      as [s1 [_ [E [_ [Hpg _]]]]].
    rewrite Hn in E. rewrite (bind_returned _ _ _ _ _ E).
    destruct (IH s1) as [Hout Hcount]. split; [exact Hout|].
    rewrite Hcount, Hpg, length_app. cbn. lia.
Qed.

Lemma self_link_never_terminates_witness :
  fst (crawl Site.urljoin
         (Site.static [(Site.page1_url,
                        Site.page [Site.einstein]
                                  (Some (Some "/page/1/"%string)))])
         7 (Some "/page/1/"%string) initial) = OutOfFuel
  /\ length (pages_fetched
               (snd (crawl Site.urljoin
                       (Site.static
                          [(Site.page1_url,
                            Site.page [Site.einstein]
                                      (Some (Some "/page/1/"%string)))])
                       7 (Some "/page/1/"%string) initial)))
     = length (pages_fetched initial) + 7.
Proof.
  apply (self_link_never_terminates Site.urljoin
           (Site.static [(Site.page1_url,
                          Site.page [Site.einstein]
                                    (Some (Some "/page/1/"%string)))])
           "/page/1/" Site.page1_url
           (Site.page [Site.einstein] (Some (Some "/page/1/"%string)))).
  - discriminate.
  - split; [reflexivity | intros h; reflexivity].
  - reflexivity.
  - reflexivity.
  - reflexivity.
Defined.

(** X12.  Records are only ever appended.  Whatever a crawl does and
    however it ends, the records present before it are still there, in
    their places, followed by the new ones. *)
Theorem quotes_data_only_grows
        (urljoin : string -> string -> option string)
        (web : list string -> string -> Response)
        (fuel : nat) (current_page : option string) (s : State) :
  exists new,
    quotes_data (snd (crawl urljoin web fuel current_page s))
    = quotes_data s ++ new.
Proof.
  apply (frame_crawl urljoin web
           (fun s' => exists new, quotes_data s' = quotes_data s ++ new)).
  - intros line s0 H. exact H.
  - intros q s0 [new H]. exists (new ++ [q]). cbn.
    now rewrite H, app_assoc.
  - intros url s0 H. rewrite get_soup_eq. exact H.
  - intros k _ s0 H.
    destruct (scrape_frame urljoin web k s0) as [Hq _]. now rewrite Hq.
  - exists []. now rewrite app_nil_r.
Qed.

(* ================================================================= *)
(** ** The tags column *)

Lemma append_assoc (a b c : string) :
  ((a ++ b) ++ c = a ++ (b ++ c))%string.
Proof. induction a as [|x a IH]; cbn; [reflexivity | now rewrite IH]. Qed.

Lemma concat_cons2 (x y : string) (l : list string) :
  String.concat ";" (x :: y :: l)
  = (x ++ String ";"%char (String.concat ";" (y :: l)))%string.
Proof. reflexivity. Qed.

Lemma semicolon_split (x x' r r' : string) :
  no_semicolon x = true -> no_semicolon x' = true ->
  (x ++ String ";"%char r = x' ++ String ";"%char r')%string ->
  x = x' /\ r = r'.
Proof.
  revert x'. induction x as [|c x IH]; intros [|c' x'] Hx Hx' E; cbn in *.
  - injection E as E. now split.
  - injection E as Hc _. subst c'. now rewrite Ascii.eqb_refl in Hx'.
  - injection E as Hc _. subst c. now rewrite Ascii.eqb_refl in Hx.
  - injection E as Hc E. subst c'.
    apply andb_prop in Hx as [_ Hx]. apply andb_prop in Hx' as [_ Hx'].
    destruct (IH x' Hx Hx' E) as [Hxx Hrr]. subst. now split.
Qed.

Lemma no_semicolon_whole (x x' r : string) :
  no_semicolon x = true ->
  x <> (x' ++ String ";"%char r)%string.
Proof.
  revert x'. induction x as [|c x IH]; intros [|c' x'] Hx E; cbn in *;
    try discriminate.
  - injection E as Hc _. subst c. now rewrite Ascii.eqb_refl in Hx.
  - injection E as Hc E. subst c'. apply andb_prop in Hx as [_ Hx].
    now apply (IH x' Hx).
Qed.

Lemma concat_nonempty_injective (l1 l2 : list string) (x y : string) :
  Forall (fun t => no_semicolon t = true) (x :: l1) ->
  Forall (fun t => no_semicolon t = true) (y :: l2) ->
  String.concat ";" (x :: l1) = String.concat ";" (y :: l2) ->
  x :: l1 = y :: l2.
Proof.
  revert x y l2.
  induction l1 as [|x2 l1 IH]; intros x y [|y2 l2] H1 H2 E.
  - cbn in E. now rewrite E.
  - rewrite concat_cons2 in E. cbn [String.concat] in E.
    apply Forall_inv in H1.
    now destruct (no_semicolon_whole _ _ _ H1 E).
  - rewrite concat_cons2 in E. cbn [String.concat] in E.
    apply Forall_inv in H2. symmetry in E.
    now destruct (no_semicolon_whole _ _ _ H2 E).
  - rewrite !concat_cons2 in E.
    pose proof (Forall_inv H1) as Hx. apply Forall_inv_tail in H1.
    pose proof (Forall_inv H2) as Hy. apply Forall_inv_tail in H2.
    destruct (semicolon_split _ _ _ _ Hx Hy E) as [Hxy E'].
    now rewrite Hxy, (IH x2 y2 l2 H1 H2 E').
Qed.

(** X13.  A row of the quotes file determines its record, provided no tag
    contains a semicolon and the tag list is not the single empty tag: two
    such records with the same row are the same record. *)
Theorem quote_row_determines_record (q1 q2 : Quote) :
  Forall (fun t => no_semicolon t = true) (tags q1) ->
  Forall (fun t => no_semicolon t = true) (tags q2) ->
  tags q1 <> [""%string] ->
  tags q2 <> [""%string] ->
  quote_row q1 = quote_row q2 ->
  q1 = q2.
Proof.
  destruct q1 as [t1 a1 l1], q2 as [t2 a2 l2]. unfold quote_row. cbn.
  intros H1 H2 N1 N2 [= -> -> E]. f_equal.
  destruct l1 as [|x l1], l2 as [|y l2].
  - reflexivity.
  - exfalso. destruct l2 as [|y2 l2].
    + cbn in E. apply N2. now rewrite <- E.
    + rewrite concat_cons2 in E. cbn [String.concat] in E.
      now destruct y.
  - exfalso. destruct l1 as [|x2 l1].
    + cbn in E. apply N1. now rewrite E.
    + rewrite concat_cons2 in E. cbn [String.concat] in E.
      now destruct x.
  - now apply concat_nonempty_injective.
Qed.

Lemma quote_row_determines_record_witness :
  quote_row (mkQuote "q" "a" ["x"; "y"]%string)
  = quote_row (mkQuote "q" "a" ["x"; "y"]%string)
  /\ mkQuote "q" "a" ["x"; "y"]%string = mkQuote "q" "a" ["x"; "y"]%string.
Proof.
  split; [reflexivity|].
  apply (quote_row_determines_record
           (mkQuote "q" "a" ["x"; "y"]%string)
           (mkQuote "q" "a" ["x"; "y"]%string)).
  - repeat constructor.
  - repeat constructor.
  - discriminate.
  - discriminate.
  - reflexivity.
Defined.

(** X14.  The tags column is ambiguous otherwise: a tag that contains a
    semicolon gives the same row as the two tags it splits into, and a
    single empty tag gives the same row as no tag at all. *)
Theorem tags_column_is_ambiguous (t a x y : string) (ts : list string) :
  quote_row (mkQuote t a ((x ++ ";" ++ y)%string :: ts))
  = quote_row (mkQuote t a (x :: y :: ts))
  /\ quote_row (mkQuote t a [""%string]) = quote_row (mkQuote t a []).
Proof.
  split; [|reflexivity].
  unfold quote_row. cbn [text author tags]. do 2 f_equal.
  destruct ts as [|z ts].
  - reflexivity.
  - rewrite !concat_cons2. cbn [String.concat].
    now rewrite append_assoc.
Qed.

(* ================================================================= *)
(** ** Requests per page *)

Lemma process_block_requests (urljoin : string -> string -> option string)
      (web : list string -> string -> Response) (b : Block) (s : State) :
  length (fetched (snd (process_block urljoin web b s)))
  <= length (fetched s) + 1.
Proof.
  destruct (well_formed b) eqn:Hwf.
  - destruct (well_formed_yields b Hwf) as [q Hq].
    rewrite (process_block_yields urljoin web b q s Hq).
    destruct (select_about_link b) as [h|]; [|cbn; lia].
    pose proof (scrape_author_bio_requests urljoin web h (appended q s))
      as Hreq.
    unfold bind.
    destruct (scrape_author_bio urljoin web h (appended q s))
      as [[bio|e|] s1]; cbn [snd ret] in *;
      (destruct Hreq as [-> | [url [r [_ ->]]]];
       [cbn; lia | rewrite length_app; cbn; lia]).
  - rewrite (process_block_malformed urljoin web b s Hwf). cbn. lia.
Qed.

(** X15.  Processing the quote blocks of a page makes at most one request
    per block, and none of them is a page request, however the processing
    ends. *)
Theorem for_blocks_requests_bounded
        (urljoin : string -> string -> option string)
        (web : list string -> string -> Response)
        (bs : list Block) (s : State) :
  length (fetched (snd (for_blocks urljoin web bs s)))
  <= length (fetched s) + length bs
  /\ pages_fetched (snd (for_blocks urljoin web bs s)) = pages_fetched s.
Proof.
  split; [|apply for_blocks_pages].
  revert s. induction bs as [|b bs IH]; intros s; cbn [for_blocks length].
  - cbn. lia.
  - pose proof (process_block_requests urljoin web b s) as Hb.
    unfold bind.
    destruct (process_block urljoin web b s) as [[[]|e|] s1];
      cbn [snd] in *; [|lia|lia].
    specialize (IH s1). lia.
Qed.

(* ================================================================= *)
(** ** A run on a file system that refuses a file *)

(** [authors.csv] is a directory: the run stops with [OSError] at the
    second [open], after the quotes file has been written. *)
Example authors_directory_run :
  fst (main Site.urljoin (Site.static Site.two_pages)
            Site.authors_is_directory 2 "quotes.csv" initial)
  = Raised OSError
  /\ map fst
       (written (snd (main Site.urljoin (Site.static Site.two_pages)
                           Site.authors_is_directory 2 "quotes.csv"
                           initial)))
     = ["quotes.csv"%string].
Proof. vm_compute. split; reflexivity. Qed.

(** The output path is [authors.csv] itself: the biographies replace the
    quotes that were written to the file first. *)
Example same_file_run :
  written (snd (main Site.urljoin (Site.static Site.two_pages)
                     Site.open_file 2 "authors.csv" initial))
  = [("authors.csv"%string,
      bio_rows [(Site.einstein_key, "Bio-A"%string);
                (Site.rowling_key, "Bio-B"%string)])].
Proof. vm_compute. reflexivity. Qed.
